(** * The HVAC contractor CSV-to-JSON transform (f.py)

    A shallow embedding of [clean_string], [clean_number], [parse_hours] and
    [convert_to_json], with the row helpers [get_value], [get_number] and
    [get_boolean], followed by the properties of the transform.

    Python [str] values are sequences of Unicode code points ([list N]).
    The behaviour of the interpreter's Unicode tables (decimal digits, case
    mapping) and of [json.loads] is taken as a parameter of the development;
    on ASCII text the parameters are pinned down by hypotheses. *)

From Stdlib Require Import ZArith NArith Ascii String DecimalString DecimalPos.
From Stdlib Require Import List Bool Lia.
From stdpp Require Import gmap list strings.

Local Open Scope Z_scope.

(** ** Python strings *)

Definition pystr : Type := list N.

(** An ASCII literal as a Python string. *)
Definition py (s : string) : pystr :=
  map N_of_ascii (list_ascii_of_string s).

Definition chr (s : string) : N :=
  match s with
  | String a _ => N_of_ascii a
  | EmptyString => 0%N
  end.

(** Truth value of a string or a list: non-empty. *)
Definition truthy {A : Type} (s : list A) : bool :=
  match s with
  | [] => false
  | _ :: _ => true
  end.

Definition str_eqb (s t : pystr) : bool := bool_decide (s = t).

(** [str.isspace] on one code point (the interpreter's whitespace set). *)
Definition isspace (c : N) : bool :=
  ((9 <=? c) && (c <=? 13) || (28 <=? c) && (c <=? 32)
   || (c =? 133) || (c =? 160) || (c =? 5760)
   || (8192 <=? c) && (c <=? 8202)
   || (c =? 8232) || (c =? 8233) || (c =? 8239) || (c =? 8287)
   || (c =? 12288))%N.

Fixpoint lstrip_with (p : N -> bool) (s : pystr) : pystr :=
  match s with
  | [] => []
  | c :: s' => if p c then lstrip_with p s' else s
  end.

Definition rstrip_with (p : N -> bool) (s : pystr) : pystr :=
  rev (lstrip_with p (rev s)).

(** [s.strip()] and [s.strip(chars)]. *)
Definition strip_with (p : N -> bool) (s : pystr) : pystr :=
  rstrip_with p (lstrip_with p s).

Definition strip (s : pystr) : pystr := strip_with isspace s.

(** [s.split(sep)] for a one-character separator. *)
Fixpoint split (sep : N) (s : pystr) : list pystr :=
  match s with
  | [] => [[]]
  | c :: s' =>
      if (c =? sep)%N then [] :: split sep s'
      else match split sep s' with
           | w :: ws => (c :: w) :: ws
           | [] => [[c]]
           end
  end.

(** [s.replace(a, b)] for one-character [a] and [b]. *)
Definition replace (a b : N) (s : pystr) : pystr :=
  map (fun c => if (c =? a)%N then b else c) s.

(** [s.startswith(c)] and [c in s] for a one-character [c]. *)
Definition startswith (c : N) (s : pystr) : bool :=
  match s with
  | c' :: _ => (c' =? c)%N
  | [] => false
  end.

Definition contains (c : N) (s : pystr) : bool :=
  existsb (fun c' => (c' =? c)%N) s.

(** [re.sub(r'[^...]+', rep, s)]: every maximal run of characters outside
    the class [keep] becomes one [rep]. *)
Fixpoint sub_runs (keep : N -> bool) (rep : N) (in_run : bool) (s : pystr)
  : pystr :=
  match s with
  | [] => []
  | c :: s' =>
      if keep c then c :: sub_runs keep rep false s'
      else if in_run then sub_runs keep rep true s'
      else rep :: sub_runs keep rep true s'
  end.

(** ASCII case mapping and digits: what the Unicode tables do below 128. *)
Definition ascii_lower (c : N) : N :=
  if ((65 <=? c) && (c <=? 90))%N then (c + 32)%N else c.

Definition ascii_upper (c : N) : N :=
  if ((97 <=? c) && (c <=? 122))%N then (c - 32)%N else c.

Definition ascii_decimal (c : N) : option N :=
  if ((48 <=? c) && (c <=? 57))%N then Some (c - 48)%N else None.

Definition is_ascii (s : pystr) : Prop := Forall (fun c => (c < 128)%N) s.

(** Decimal rendering of an integer, as [str(n)] and f-strings do. *)
Definition str_of_Z (z : Z) : pystr :=
  match z with
  | Zneg p => chr "-" :: py (NilEmpty.string_of_uint (Pos.to_uint p))
  | Zpos p => py (NilEmpty.string_of_uint (Pos.to_uint p))
  | Z0 => py "0"
  end.


(** ** Python floats

    A [float] is an IEEE binary64 value: not-a-number, an infinity, or the
    finite value [(-1)^neg * m * 2^e]. *)

Inductive pyfloat : Type :=
  | FNan
  | FInf (neg : bool)
  | FFinite (neg : bool) (m : N) (e : Z).

(** [num / den] (both positive) rounded to the nearest binary64, ties to
    even; [None] when the rounded value exceeds the largest finite double. *)
Definition round_binary64 (num den : N) : option (N * Z) :=
  if (num =? 0)%N then Some (0%N, 0) else
  let e0 := Z.of_N (N.log2 num) - Z.of_N (N.log2 den) in
  let ge_pow2 (k : Z) : bool :=
    if 0 <=? k then (N.shiftl den (Z.to_N k) <=? num)%N
    else (den <=? N.shiftl num (Z.to_N (- k)))%N in
  let k := if ge_pow2 e0 then e0 else e0 - 1 in
  let e := Z.max (k - 52) (-1074) in
  let n := if 0 <=? e then num else N.shiftl num (Z.to_N (- e)) in
  let d := if 0 <=? e then N.shiftl den (Z.to_N e) else den in
  let q := (n / d)%N in
  let r := (n mod d)%N in
  let q' :=
    if ((d <? 2 * r) || ((2 * r =? d) && N.odd q))%N then (q + 1)%N else q in
  let '(m, e') :=
    if (q' =? 2 ^ 53)%N then ((2 ^ 52)%N, e + 1)
    else if (q' =? 0)%N then (0%N, 0)
    else (q', e) in
  if 971 <? e' then None else Some (m, e').

Definition float_of_ratio (neg : bool) (num den : N) : pyfloat :=
  match round_binary64 num den with
  | Some (m, e) => FFinite neg m e
  | None => FInf neg
  end.

(** Truth value of a float: non-zero. *)
Definition float_truthy (x : pyfloat) : bool :=
  match x with
  | FFinite _ m _ => negb (m =? 0)%N
  | _ => true
  end.

(** [x >= num / 2^k] for a positive dyadic bound; false on not-a-number. *)
Definition float_ge_dyadic (x : pyfloat) (num : N) (k : N) : bool :=
  match x with
  | FNan => false
  | FInf neg => negb neg
  | FFinite true _ _ => false
  | FFinite false m e =>
      let e' := e + Z.of_N k in
      if 0 <=? e' then (num <=? N.shiftl m (Z.to_N e'))%N
      else (N.shiftl num (Z.to_N (- e')) <=? m)%N
  end.

(** Exceptions the transform can meet. *)
Inductive exn : Type :=
  | ValueError
  | TypeError
  | OverflowError
  | IndexError.

Inductive result (A : Type) : Type :=
  | Ok (a : A)
  | Raise (e : exn).
Arguments Ok {A} a.
Arguments Raise {A} e.

(** Sequencing: an exception raised by the first computation propagates. *)
#[global] Instance result_bind : MBind result := fun A B k r =>
  match r with
  | Ok a => k a
  | Raise e => Raise e
  end.

(** [try: body except (e1, e2, ...): handler]. *)
Definition try_except {A : Type} (body : result A) (caught : exn -> bool)
    (handler : result A) : result A :=
  match body with
  | Ok a => Ok a
  | Raise e => if caught e then handler else Raise e
  end.

#[global] Instance exn_eq_dec : EqDecision exn.
Proof. solve_decision. Defined.

Definition caught_by (es : list exn) (e : exn) : bool :=
  bool_decide (e ∈ es).

(** [int(x)] of a float: truncation toward zero. *)
Definition int_of_float (x : pyfloat) : result Z :=
  match x with
  | FNan => Raise ValueError
  | FInf _ => Raise OverflowError
  | FFinite neg m e =>
      let a := if 0 <=? e then N.shiftl m (Z.to_N e)
               else N.shiftr m (Z.to_N (- e)) in
      Ok (if neg then - Z.of_N a else Z.of_N a)
  end.

(** ** Values handed to [clean_number], and parsed JSON *)

Inductive value : Type :=
  | VNone
  | VStr (s : pystr)
  | VInt (z : Z).

(** A [dict] keeps its keys in insertion order; assigning to a key that is
    already present keeps its position. *)
Fixpoint dict_set {V : Type} (k : pystr) (v : V) (d : list (pystr * V))
  : list (pystr * V) :=
  match d with
  | [] => [(k, v)]
  | (k', v') :: d' =>
      if str_eqb k' k then (k', v) :: d' else (k', v') :: dict_set k v d'
  end.

Fixpoint dict_get {V : Type} (k : pystr) (d : list (pystr * V)) : option V :=
  match d with
  | [] => None
  | (k', v') :: d' => if str_eqb k' k then Some v' else dict_get k d'
  end.

#[warnings="-register-all"]
Inductive pyobj : Type :=
  | ONone
  | OBool (b : bool)
  | OInt (z : Z)
  | OFloat (x : pyfloat)
  | OStr (s : pystr)
  | OList (l : list pyobj)
  | ODict (kvs : list (pystr * pyobj)).

Definition dquote : N := 34%N.

(** ** [float(s)] on text

    The grammar of the interpreter: optional sign, then [inf], [infinity] or
    [nan] in any case, or decimal digits with an optional point and exponent;
    single underscores between digits; surrounding whitespace ignored. *)

Definition is_digit (c : N) : bool := ((48 <=? c) && (c <=? 57))%N.

Definition c_isspace (c : N) : bool :=
  ((9 <=? c) && (c <=? 13) || (c =? 32))%N.

Fixpoint span_digits (s : pystr) : pystr * pystr :=
  match s with
  | c :: s' =>
      if is_digit c then let '(ds, r) := span_digits s' in (c :: ds, r)
      else ([], s)
  | [] => ([], [])
  end.

Definition digits_value (ds : pystr) : N :=
  fold_left (fun acc c => (acc * 10 + (c - 48))%N) ds 0%N.

Definition take_sign (s : pystr) : bool * pystr :=
  match s with
  | c :: s' =>
      if (c =? chr "-")%N then (true, s')
      else if (c =? chr "+")%N then (false, s')
      else (false, s)
  | [] => (false, [])
  end.

(** The value [mant * 10^e10], correctly rounded. *)
Definition scale10 (neg : bool) (mant : N) (e10 : Z) : pyfloat :=
  if 0 <=? e10 then float_of_ratio neg (mant * 10 ^ Z.to_N e10)%N 1%N
  else float_of_ratio neg mant (10 ^ Z.to_N (- e10))%N.

Definition parse_decimal (s : pystr) : option pyfloat :=
  let '(neg, s1) := take_sign s in
  let '(ip, s2) := span_digits s1 in
  let '(fp, s3) :=
    match s2 with
    | c :: s2' => if (c =? chr ".")%N then span_digits s2' else ([], s2)
    | [] => ([], [])
    end in
  if negb (truthy (ip ++ fp)) then None else
  let mant := digits_value (ip ++ fp) in
  let nfrac := Z.of_nat (length fp) in
  match s3 with
  | [] => Some (scale10 neg mant (- nfrac))
  | c :: s4 =>
      if ((c =? chr "e") || (c =? chr "E"))%N then
        let '(eneg, s5) := take_sign s4 in
        let '(ed, s6) := span_digits s5 in
        match ed, s6 with
        | _ :: _, [] =>
            let ev := Z.of_N (digits_value ed) in
            Some (scale10 neg mant ((if eneg then - ev else ev) - nfrac))
        | _, _ => None
        end
      else None
  end.

Definition parse_inf_or_nan (s : pystr) : option pyfloat :=
  let '(neg, r) := take_sign s in
  let l := map ascii_lower r in
  if str_eqb l (py "inf") || str_eqb l (py "infinity") then Some (FInf neg)
  else if str_eqb l (py "nan") then Some FNan
  else None.

(** Underscores are dropped when each stands between two digits; [None]
    when one does not. *)
Fixpoint drop_underscores (prev : N) (s : pystr) : option pystr :=
  match s with
  | [] => if (prev =? chr "_")%N then None else Some []
  | c :: s' =>
      if (c =? chr "_")%N then
        if is_digit prev then drop_underscores c s' else None
      else if (prev =? chr "_")%N && negb (is_digit c) then None
      else r ← drop_underscores c s'; Some (c :: r)
  end.

Definition float_of_ascii (s : pystr) : result pyfloat :=
  match (if contains (chr "_") s then drop_underscores 0%N s else Some s) with
  | None => Raise ValueError
  | Some s1 =>
      let s2 := strip_with c_isspace s1 in
      match parse_decimal s2 with
      | Some x => Ok x
      | None =>
          match parse_inf_or_nan s2 with
          | Some x => Ok x
          | None => Raise ValueError
          end
      end
  end.

(** [float(n)] of an integer. *)
Definition float_of_int (z : Z) : result pyfloat :=
  match round_binary64 (Z.abs_N z) 1%N with
  | Some (m, e) => Ok (FFinite (z <? 0) m e)
  | None => Raise OverflowError
  end.

(** ** A reference reading of flat JSON objects

    [json_flat] reads an object whose keys and values are strings without
    escapes; it is what [json.loads] returns on such text. *)

Definition json_ws (c : N) : bool :=
  ((c =? 32) || (c =? 9) || (c =? 10) || (c =? 13))%N.

Definition skip_ws (s : pystr) : pystr := lstrip_with json_ws s.

Fixpoint json_string_body (s : pystr) : option (pystr * pystr) :=
  match s with
  | [] => None
  | c :: s' =>
      if (c =? dquote)%N then Some ([], s')
      else if ((c =? chr "\") || (c <? 32))%N then None
      else '(w, r) ← json_string_body s'; Some (c :: w, r)
  end.

Definition json_string (s : pystr) : option (pystr * pystr) :=
  match s with
  | c :: s' => if (c =? dquote)%N then json_string_body s' else None
  | [] => None
  end.

Fixpoint json_members (fuel : nat) (s : pystr) (acc : list (pystr * pyobj))
  : option (list (pystr * pyobj)) :=
  match fuel with
  | O => None
  | S fuel' =>
      '(k, s1) ← json_string s;
      match skip_ws s1 with
      | c :: s2 =>
          if (c =? chr ":")%N then
            '(v, s3) ← json_string (skip_ws s2);
            let acc' := dict_set k (OStr v) acc in
            match skip_ws s3 with
            | c' :: s4 =>
                if (c' =? chr ",")%N then json_members fuel' (skip_ws s4) acc'
                else if (c' =? chr "}")%N then
                  match skip_ws s4 with
                  | [] => Some acc'
                  | _ :: _ => None
                  end
                else None
            | [] => None
            end
          else None
      | [] => None
      end
  end.

Definition json_flat (s : pystr) : option pyobj :=
  match skip_ws s with
  | c :: s1 =>
      if (c =? chr "{")%N then
        match skip_ws s1 with
        | c' :: s2 =>
            if (c' =? chr "}")%N then
              match skip_ws s2 with
              | [] => Some (ODict [])
              | _ :: _ => None
              end
            else ODict <$> json_members (length s) (skip_ws s1) []
        | [] => None
        end
      else None
  | [] => None
  end.

(** ** The output document *)

Record location : Type := {
  loc_city : pystr;
  loc_state : pystr;
  loc_zip : pystr;
  loc_full_address : pystr;
  loc_latitude : option pyfloat;
  loc_longitude : option pyfloat }.

Record basic_info : Type := {
  bi_name : pystr;
  bi_query : pystr;
  bi_location : location }.

Record phone_entry : Type := {
  pe_number : pystr;
  pe_type : pystr;
  pe_carrier : pystr }.

Record phone_info : Type := {
  ph_primary : pystr;
  ph_type : pystr;
  ph_carrier : pystr;
  ph_additional_phones : list phone_entry }.

Record contact : Type := {
  ct_full_name : pystr;
  ct_first_name : pystr;
  ct_last_name : pystr;
  ct_title : pystr }.

Record email_entry : Type := {
  em_address : pystr;
  em_status : pystr;
  em_validation_details : pystr;
  em_contact : contact }.

Record contact_info : Type := {
  ci_phone : phone_info;
  ci_email : email_entry;
  ci_additional_emails : list email_entry }.

Record website_details : Type := {
  wd_has_website : bool;
  wd_title : pystr;
  wd_description : pystr;
  wd_generator : pystr;
  wd_has_fb_pixel : bool;
  wd_has_google_tag : bool }.

Record social_media : Type := {
  sm_facebook : pystr;
  sm_instagram : pystr;
  sm_linkedin : pystr;
  sm_twitter : pystr;
  sm_youtube : pystr }.

Record web_presence : Type := {
  wp_website : pystr;
  wp_website_details : website_details;
  wp_social_media : social_media }.

Record business_details : Type := {
  bd_year_founded : option Z;
  bd_years_in_business : option Z;
  bd_employee_count : option Z;
  bd_business_type : pystr;
  bd_description : pystr;
  bd_services : list pystr;
  bd_hours : pyobj }.

Record online_presence : Type := {
  op_google_rating : option pyfloat;
  op_google_reviews_count : option Z;
  op_google_reviews_link : pystr;
  op_google_place_id : pystr;
  op_business_status : pystr;
  op_photos_count : option Z;
  op_photo_url : pystr;
  op_verified : bool }.

Record segmentation : Type := {
  has_valid_email : bool;
  has_mobile_phone : bool;
  has_website : bool;
  has_facebook : bool;
  has_reviews : bool;
  high_rating : bool;
  established_business : bool;
  is_verified : bool }.

Record contractor : Type := {
  c_id : pystr;
  c_slug : pystr;
  c_basic_info : basic_info;
  c_contact_info : contact_info;
  c_web_presence : web_presence;
  c_business_details : business_details;
  c_online_presence : online_presence;
  c_segmentation : segmentation }.

Record segments : Type := {
  with_website : nat;
  with_valid_email : nat;
  with_mobile_phone : nat;
  high_rated : nat;
  established : nat;
  verified : nat }.

Record meta : Type := {
  total_count : nat;
  generated_at : pystr;
  meta_segments : segments;
  processed_rows : list Z }.

Record document : Type := {
  hvac_contractors : list contractor;
  doc_meta : meta }.

(** What the run prints, one entry per line: the two warnings, the
    progress line of a row, and the two closing lines (the name of the
    output file, which the first closing line repeats, is left out). *)
Inductive printed : Type :=
  | WarnOutOfRange (row_index : Z)
  | WarnEmpty (row_index : Z)
  | ProcessedRow (row_index : Z) (name : pystr)
  | ProcessedTotal (count : nat)
  | SegmentStats (stats : segments).

(** One reading of [datetime.datetime.now()]: its [year], the integer part
    of its [timestamp()], and its [isoformat()]. *)
Record datetime : Type := {
  dt_year : Z;
  dt_timestamp : Z;
  dt_isoformat : pystr }.

(** ** The transform *)

(** The interpreter's tables and [json.loads]: the decimal value of a code
    point (used by [\D] and by [float]), [str.lower], [str.upper], and the
    JSON reader ([None] when it raises). *)
Class Interpreter : Type := {
  to_decimal : N -> option N;
  lower : pystr -> pystr;
  upper : pystr -> pystr;
  json_loads : pystr -> option pyobj }.

(** The interpreter restricted to ASCII text and flat JSON objects. *)
Definition ascii_interpreter : Interpreter :=
  {| to_decimal := ascii_decimal;
     lower := map ascii_lower;
     upper := map ascii_upper;
     json_loads := json_flat |}.

(** A sample table, a sample selection of rows and a sample clock. *)
Definition sample_headers : list pystr :=
  [py "name"; py "place_id"; py "phone"; py "phone_1"; py "site";
   py "state"; py "us_state"; py "site.company_insights.founded_year";
   py "working_hours"].

Definition sample_rows : list (list pystr) :=
  [[py "Acme Heating"; py "ChIJ1"; py "(555) 123-4567"; py "555-123-4567";
    py "https://acme.example"; py ""; py "TX"; py "2000";
    py "mon:9-5|tue:9-5"];
   [py "Zero Air"; py ""; py ""; py "555-000-1111"; py ""; py "CA"; py "";
    py "0"; py ""]].

Definition sample_clock (year : Z) (n : nat) : datetime :=
  {| dt_year := year;
     dt_timestamp := 1744088836 + Z.of_nat n;
     dt_isoformat := py "2025-04-08T05:07:16" |}.

(** A sample row with several phones, emails and service tags. *)
Definition contact_headers : list pystr :=
  [py "name"; py "phone"; py "phone_1"; py "phone_2"; py "phone_3";
   py "email_2"; py "email_3"; py "subtypes"; py "reviews"].

Definition contact_row : list pystr :=
  [py "Acme Heating"; py "555-1000"; py "(555) 1000"; py "555 2000"; py "";
   py "a@acme.example"; py "a@acme.example"; py "HVAC contractor, , Plumber ";
   py "12"].

Section Transform.

Context {interp : Interpreter}.

Hypothesis to_decimal_ascii :
  forall c, (c < 128)%N -> to_decimal c = ascii_decimal c.
Hypothesis lower_ascii :
  forall s, is_ascii s -> lower s = map ascii_lower s.
Hypothesis upper_ascii :
  forall s, is_ascii s -> upper s = map ascii_upper s.
Hypothesis json_loads_flat :
  forall s o, json_flat s = Some o -> json_loads s = Some o.

(** [re.sub(r'\D', '', s)]. *)
Definition digits_only (s : pystr) : pystr :=
  List.filter (fun c => bool_decide (is_Some (to_decimal c))) s.

(** Before parsing, [float] maps Unicode spaces to a blank and Unicode
    digits to ASCII digits, and stops at any other non-ASCII character. *)
Fixpoint to_ascii_form (s : pystr) : pystr :=
  match s with
  | [] => []
  | c :: s' =>
      if (c <? 127)%N then c :: to_ascii_form s'
      else if isspace c then chr " " :: to_ascii_form s'
      else match to_decimal c with
           | Some d => (48 + d)%N :: to_ascii_form s'
           | None => [chr "?"]
           end
  end.

Definition float_of_str (s : pystr) : result pyfloat :=
  float_of_ascii
    (if forallb (fun c => (c <? 128)%N) s then s else to_ascii_form s).

Definition float_of (n : value) : result pyfloat :=
  match n with
  | VNone => Raise TypeError
  | VStr s => float_of_str s
  | VInt z => float_of_int z
  end.

Definition clean_string (s : option pystr) : pystr :=
  match s with
  | None => py ""
  | Some s =>
      if str_eqb s (py "None") || str_eqb s (py "") then py ""
      else strip s
  end.

Definition is_none_token (n : value) : bool :=
  match n with
  | VNone => true
  | VStr s => str_eqb s (py "None") || str_eqb s (py "")
  | VInt _ => false
  end.

Definition clean_number (n : value) : result (option Z) :=
  if is_none_token n then Ok None
  else
    try_except
      (x ← float_of n; i ← int_of_float x; Ok (Some i))
      (caught_by [ValueError; TypeError])
      (Ok None).

Definition raw_hours (hours_string : pystr) : pyobj :=
  ODict [(py "raw_hours", OStr hours_string)].

Definition parse_hours (hours_string : pystr) : pyobj :=
  if negb (truthy hours_string) || str_eqb hours_string (py "None")
  then ODict []
  else if startswith (chr "{") hours_string then
    let json_str := replace (chr "'") dquote hours_string in
    match json_loads json_str with
    | Some hours_obj => hours_obj
    | None => raw_hours hours_string
    end
  else if contains (chr "|") hours_string then
    ODict
      (fold_left
         (fun hours_obj day_hour =>
            match split (chr ":") day_hour with
            | [day; time] => dict_set (lower day) (OStr time) hours_obj
            | _ => hours_obj
            end)
         (split (chr "|") hours_string) [])
  else raw_hours hours_string.

(** [{header: i for i, header in enumerate(headers)}]. *)
Definition make_header_map (headers : list pystr) : gmap pystr nat :=
  fold_left (fun m ih => <[ih.2 := ih.1]> m) (imap pair headers) ∅.

Section Row.

(** The helpers close over the header map and the current row. *)
Variable header_map : gmap pystr nat.
Variable row : list pystr.

Definition get_value_as {A : Type} (ret : pystr -> A) (key : pystr)
    (default : A) : A :=
  match header_map !! key with
  | None => default
  | Some index =>
      if (length row <=? index)%nat then default
      else ret (clean_string (Some (nth index row [])))
  end.

Definition get_value (key : pystr) (default : pystr) : pystr :=
  get_value_as id key default.

Definition get_number (key : pystr) (default : option pyfloat)
  : result (option pyfloat) :=
  let val := get_value key (py "") in
  if negb (truthy val) then Ok default
  else
    try_except
      (x ← float_of_str val; Ok (Some x))
      (caught_by [ValueError; TypeError])
      (Ok default).

Definition get_boolean (key : pystr) (default : bool) : bool :=
  let val := get_value key (py "") in
  if truthy val then str_eqb (upper val) (py "TRUE") else default.

(** The additional phones, with the set of digit strings already seen. *)
Definition add_phone (acc : list phone_entry * gset pystr)
    (phone_field : pystr) : list phone_entry * gset pystr :=
  let '(additional_phones, processed_phone_numbers) := acc in
  let phone_number := get_value phone_field (py "") in
  if truthy phone_number then
    let clean_phone := digits_only phone_number in
    if truthy clean_phone
       && negb (bool_decide (clean_phone ∈ processed_phone_numbers))
    then
      (additional_phones ++
         [{| pe_number := phone_number;
             pe_type :=
               get_value (phone_field ++ py ".phones_enricher.carrier_type")
                 (py "");
             pe_carrier :=
               get_value (phone_field ++ py ".phones_enricher.carrier_name")
                 (py "") |}],
       {[clean_phone]} ∪ processed_phone_numbers)
    else acc
  else acc.

Definition phone_fields : list pystr :=
  [py "phone_1"; py "phone_2"; py "phone_3"].

Definition seed_processed (phone : pystr) : gset pystr :=
  if truthy phone then {[digits_only phone]} else ∅.

Definition dedup_phones (phone : pystr) : list phone_entry * gset pystr :=
  fold_left add_phone phone_fields ([], seed_processed phone).

Definition email_contact (email_field : pystr) : contact :=
  {| ct_full_name := get_value (email_field ++ py "_full_name") (py "");
     ct_first_name := get_value (email_field ++ py "_first_name") (py "");
     ct_last_name := get_value (email_field ++ py "_last_name") (py "");
     ct_title := get_value (email_field ++ py "_title") (py "") |}.

Definition add_email (additional_emails : list email_entry)
    (email_field : pystr) : list email_entry :=
  let email := get_value email_field (py "") in
  if truthy email then
    additional_emails ++
      [{| em_address := email;
          em_status :=
            get_value (email_field ++ py ".emails_validator.status") (py "");
          em_validation_details :=
            get_value (email_field ++ py ".emails_validator.status_details")
              (py "");
          em_contact := email_contact email_field |}]
  else additional_emails.

Definition is_slug_char (c : N) : bool :=
  ((97 <=? c) && (c <=? 122) || (48 <=? c) && (c <=? 57))%N.

Definition make_slug (name : pystr) : pystr :=
  strip_with (fun c => (c =? chr "-")%N)
    (sub_runs is_slug_char (chr "-") false (lower name)).

Definition fallback_id (row_index : Z) (now : datetime) : pystr :=
  py "id-" ++ str_of_Z row_index ++ py "-" ++ str_of_Z (dt_timestamp now).

(** [bool(x and x > 0)], [bool(x and x > 5)] on an optional integer and
    [bool(x and x >= 4.5)] on an optional float. *)
Definition present_and_gt (x : option Z) (bound : Z) : bool :=
  match x with
  | None => false
  | Some v => negb (v =? 0) && (bound <? v)
  end.

Definition present_and_ge_4_5 (x : option pyfloat) : bool :=
  match x with
  | None => false
  | Some v => float_truthy v && float_ge_dyadic v 9 1
  end.

(** The body of the loop for a row that passed the checks. [now] is the
    clock reading taken when the row has no place id. *)
Definition build_contractor (current_year : Z) (row_index : Z)
    (now : datetime) : result contractor :=
  (* Basic business information *)
  let name := get_value (py "name") (py "") in
  let query := get_value (py "query") (py "") in
  let place_id := get_value (py "place_id") (py "") in
  let slug := make_slug name in
  (* Contact information *)
  let phone := get_value (py "phone") (py "") in
  let phone_type :=
    get_value (py "phone.phones_enricher.carrier_type") (py "") in
  let phone_carrier :=
    get_value (py "phone.phones_enricher.carrier_name") (py "") in
  (* Location information *)
  let city := get_value (py "city") (py "") in
  let state := get_value (py "state") (get_value (py "us_state") (py "")) in
  let zip_code := get_value (py "postal_code") (py "") in
  let full_address := get_value (py "full_address") (py "") in
  latitude ← get_number (py "latitude") None;
  longitude ← get_number (py "longitude") None;
  (* Email information *)
  let email1 := get_value (py "email_1") (py "") in
  let email1_status :=
    get_value (py "email_1.emails_validator.status") (py "") in
  let email1_details :=
    get_value (py "email_1.emails_validator.status_details") (py "") in
  (* Business details *)
  year_founded ←
    clean_number
      (VStr (get_value (py "site.company_insights.founded_year")
               (get_value (py "company_year_started") (py ""))));
  employee_count ←
    clean_number
      (VStr (get_value (py "site.company_insights.employees")
               (get_value (py "number_of_employees") (py ""))));
  let description :=
    get_value (py "description")
      (get_value (py "site.company_insights.description") (py "")) in
  (* Verification status *)
  let verified := get_boolean (py "verified") false in
  (* Services *)
  let subtypes := get_value (py "subtypes") (py "") in
  let services :=
    if truthy subtypes then
      map strip
        (List.filter (fun s => truthy (strip s)) (split (chr ",") subtypes))
    else [] in
  (* Parse hours *)
  let hours_obj := parse_hours (get_value (py "working_hours") (py "")) in
  (* Process phone numbers to avoid duplicates *)
  let additional_phones := (dedup_phones phone).1 in
  (* Process emails *)
  let additional_emails :=
    fold_left add_email [py "email_2"; py "email_3"] [] in
  (* Calculate years in business *)
  let years_in_business :=
    match year_founded with
    | Some y => if negb (y =? 0) then Some (current_year - y) else None
    | None => None
    end in
  (* Check if email is valid *)
  let has_valid_email := str_eqb email1_status (py "RECEIVING") in
  (* Check if phone is mobile *)
  let has_mobile_phone :=
    str_eqb (lower phone_type) (py "mobile")
    || existsb
         (fun p => truthy (pe_type p)
                   && str_eqb (lower (pe_type p)) (py "mobile"))
         additional_phones in
  let website := get_value (py "site") (py "") in
  let facebook := get_value (py "facebook") (py "") in
  rating ← get_number (py "rating") None;
  reviews_count ← clean_number (VStr (get_value (py "reviews") (py "")));
  photos_count ← clean_number (get_value_as VStr (py "photos_count") (VInt 0));
  (* Build the contractor object *)
  Ok {|
    c_id := if truthy place_id then place_id else fallback_id row_index now;
    c_slug := slug;
    c_basic_info := {|
      bi_name := name;
      bi_query := query;
      bi_location := {|
        loc_city := city;
        loc_state := state;
        loc_zip := zip_code;
        loc_full_address := full_address;
        loc_latitude := latitude;
        loc_longitude := longitude |} |};
    c_contact_info := {|
      ci_phone := {|
        ph_primary := phone;
        ph_type := phone_type;
        ph_carrier := phone_carrier;
        ph_additional_phones := additional_phones |};
      ci_email := {|
        em_address := email1;
        em_status := email1_status;
        em_validation_details := email1_details;
        em_contact := email_contact (py "email_1") |};
      ci_additional_emails := additional_emails |};
    c_web_presence := {|
      wp_website := website;
      wp_website_details := {|
        wd_has_website := truthy website;
        wd_title := get_value (py "website_title") (py "");
        wd_description := get_value (py "website_description") (py "");
        wd_generator := get_value (py "website_generator") (py "");
        wd_has_fb_pixel := get_boolean (py "website_has_fb_pixel") false;
        wd_has_google_tag := get_boolean (py "website_has_google_tag") false |};
      wp_social_media := {|
        sm_facebook := facebook;
        sm_instagram := get_value (py "instagram") (py "");
        sm_linkedin := get_value (py "linkedin") (py "");
        sm_twitter := get_value (py "twitter") (py "");
        sm_youtube := get_value (py "youtube") (py "") |} |};
    c_business_details := {|
      bd_year_founded := year_founded;
      bd_years_in_business := years_in_business;
      bd_employee_count := employee_count;
      bd_business_type := get_value (py "business_type") (py "");
      bd_description := description;
      bd_services := services;
      bd_hours := hours_obj |};
    c_online_presence := {|
      op_google_rating := rating;
      op_google_reviews_count := reviews_count;
      op_google_reviews_link := get_value (py "reviews_link") (py "");
      op_google_place_id := place_id;
      op_business_status := get_value (py "business_status") (py "");
      op_photos_count := photos_count;
      op_photo_url := get_value (py "photo") (py "");
      op_verified := verified |};
    c_segmentation := {|
      has_valid_email := has_valid_email;
      has_mobile_phone := has_mobile_phone;
      has_website := truthy website;
      has_facebook := truthy facebook;
      has_reviews := present_and_gt reviews_count 0;
      high_rating := present_and_ge_4_5 rating;
      established_business := present_and_gt years_in_business 5;
      is_verified := verified |} |}.

End Row.

(** ** The loop over the requested rows *)

(** The list being built, what was printed so far, and how many times the
    clock has been read. *)
Record run_state : Type := {
  rs_contractors : list contractor;
  rs_printed : list printed;
  rs_clock_reads : nat }.

(** [row[i]] for a non-negative [i]. *)
Definition index_row (row : list pystr) (i : nat) : result pystr :=
  match row !! i with
  | Some cell => Ok cell
  | None => Raise IndexError
  end.

Section Run.

Variable clock : nat -> datetime.
Variable headers : list pystr.
Variable all_rows : list (list pystr).

Definition current_year : Z := dt_year (clock 0%nat).
Definition header_map : gmap pystr nat := make_header_map headers.

Definition warn (st : run_state) (w : printed) : run_state :=
  {| rs_contractors := rs_contractors st;
     rs_printed := rs_printed st ++ [w];
     rs_clock_reads := rs_clock_reads st |}.

(** One pass of [for row_index in specific_rows]. *)
Definition process_row (st : run_state) (row_index : Z) : result run_state :=
  let adjusted_index := row_index - 1 in
  if (adjusted_index <? 0) || (Z.of_nat (length all_rows) <=? adjusted_index)
  then Ok (warn st (WarnOutOfRange row_index))
  else
    let row := nth (Z.to_nat adjusted_index) all_rows [] in
    no_name ←
      (if negb (truthy row) then Ok true
       else cell ← index_row row (default 0%nat (header_map !! py "name"));
            Ok (negb (truthy cell)));
    if (no_name : bool) then Ok (warn st (WarnEmpty row_index))
    else
      let reads := rs_clock_reads st in
      contractor ←
        build_contractor header_map row current_year row_index (clock reads);
      Ok {| rs_contractors := rs_contractors st ++ [contractor];
            rs_printed :=
              rs_printed st ++
                [ProcessedRow row_index (get_value header_map row (py "name")
                                           (py ""))];
            rs_clock_reads :=
              if truthy (get_value header_map row (py "place_id") (py ""))
              then reads else S reads |}.

Fixpoint process_rows (st : run_state) (specific_rows : list Z)
  : result run_state :=
  match specific_rows with
  | [] => Ok st
  | row_index :: rest =>
      st' ← process_row st row_index; process_rows st' rest
  end.

Definition count_where (flag : segmentation -> bool)
    (contractors : list contractor) : nat :=
  length (List.filter (fun c => flag (c_segmentation c)) contractors).

Definition segment_stats (contractors : list contractor) : segments :=
  {| with_website := count_where has_website contractors;
     with_valid_email := count_where has_valid_email contractors;
     with_mobile_phone := count_where has_mobile_phone contractors;
     high_rated := count_where high_rating contractors;
     established := count_where established_business contractors;
     verified := count_where is_verified contractors |}.

(** The document handed to [json.dump], with the lines printed. The first
    clock reading gives the current year; the last one the time stamp of
    the document. *)
Definition convert_to_json (specific_rows : list Z)
  : result (document * list printed) :=
  st ←
    process_rows
      {| rs_contractors := []; rs_printed := []; rs_clock_reads := 1 |}
      specific_rows;
  let contractors := rs_contractors st in
  Ok ({| hvac_contractors := contractors;
         doc_meta := {|
           total_count := length contractors;
           generated_at := dt_isoformat (clock (rs_clock_reads st));
           meta_segments := segment_stats contractors;
           processed_rows := specific_rows |} |},
      rs_printed st ++
        [ProcessedTotal (length contractors);
         SegmentStats (segment_stats contractors)]).

End Run.

(** ** Definitions used to state the properties *)

(** The number of records whose flag is true, counted one record at a
    time. *)
Fixpoint number_with (flag : contractor -> bool) (l : list contractor) : nat :=
  match l with
  | [] => 0
  | c :: l' => (if flag c then 1 else 0) + number_with flag l'
  end.

(** The cell a column name resolves to in a row: the column is in the
    header and the row is long enough to hold it. *)
Definition column_cell (hm : gmap pystr nat) (row : list pystr)
    (key : pystr) : option pystr :=
  index ← hm !! key; row !! index.

(** A record of the output was built from one of the rows of the table. *)
Definition built_from (clock : nat -> datetime) (headers : list pystr)
    (all_rows : list (list pystr)) (c : contractor) : Prop :=
  exists row row_index now,
    row ∈ all_rows /\
    build_contractor (header_map headers) row (current_year clock)
      row_index now = Ok c.

(** The digits-only form of an entry of the additional-phones list. *)
Definition phone_key (p : phone_entry) : pystr := digits_only (pe_number p).

(** What the loop over the phone columns keeps true: the keys collected so
    far are pairwise different, all of them are in the seen-set, none of
    them was in the seen-set at the start, and the seen-set only grows. *)
Definition phones_inv (seed : gset pystr)
    (acc : list phone_entry * gset pystr) : Prop :=
  NoDup (map phone_key acc.1)
  /\ (forall k, k ∈ map phone_key acc.1 -> k ∈ acc.2 /\ k ∉ seed)
  /\ seed ⊆ acc.2.

Ltac solve_ascii :=
  unfold is_ascii; repeat (apply Forall_cons; split; [reflexivity|]);
  apply Forall_nil_2.

(** The day key and the time of an entry of the pipe format, when the entry
    splits on ":" in exactly two parts. *)
Definition day_entry (entry : pystr) : option (pystr * pystr) :=
  match split (chr ":") entry with
  | [day; time] => Some (lower day, time)
  | _ => None
  end.

(** The time recorded for a day key: that of the last entry with the key. *)
Fixpoint last_time (pairs : list (pystr * pystr)) (k : pystr)
  : option pystr :=
  match pairs with
  | [] => None
  | (day, time) :: rest =>
      match last_time rest k with
      | Some t => Some t
      | None => if str_eqb day k then Some time else None
      end
  end.

(** One pass of the loop over the entries of the pipe format. *)
Definition add_day (hours_obj : list (pystr * pyobj)) (day_hour : pystr)
  : list (pystr * pyobj) :=
  match split (chr ":") day_hour with
  | [day; time] => dict_set (lower day) (OStr time) hours_obj
  | _ => hours_obj
  end.

(** A record with its id blanked when the row had no place id, and a
    document with these records and its time stamp blanked: what is left to
    compare between two runs. *)
Definition scrub_id (c : contractor) : contractor :=
  if truthy (op_google_place_id (c_online_presence c)) then c
  else {| c_id := py "";
          c_slug := c_slug c;
          c_basic_info := c_basic_info c;
          c_contact_info := c_contact_info c;
          c_web_presence := c_web_presence c;
          c_business_details := c_business_details c;
          c_online_presence := c_online_presence c;
          c_segmentation := c_segmentation c |}.

Definition scrub_document (d : document) : document :=
  {| hvac_contractors := map scrub_id (hvac_contractors d);
     doc_meta := {|
       total_count := total_count (doc_meta d);
       generated_at := py "";
       meta_segments := meta_segments (doc_meta d);
       processed_rows := processed_rows (doc_meta d) |} |}.

(** Two outcomes agree: the same exception, or results related by [R]. *)
Definition same_outcome {A : Type} (R : A -> A -> Prop) (r1 r2 : result A)
  : Prop :=
  match r1, r2 with
  | Ok a1, Ok a2 => R a1 a2
  | Raise e1, Raise e2 => e1 = e2
  | _, _ => False
  end.

Definition same_state (st1 st2 : run_state) : Prop :=
  map scrub_id (rs_contractors st1) = map scrub_id (rs_contractors st2)
  /\ map (fun c => c_segmentation c) (rs_contractors st1) =
       map (fun c => c_segmentation c) (rs_contractors st2)
  /\ rs_printed st1 = rs_printed st2
  /\ rs_clock_reads st1 = rs_clock_reads st2.

Fixpoint last_index (key : pystr) (headers : list pystr) : option nat :=
  match headers with
  | [] => None
  | header :: rest =>
      match last_index key rest with
      | Some i => Some (S i)
      | None => if str_eqb header key then Some 0%nat else None
      end
  end.



(** The row number a printed line is about, and the name a progress line
    shows. *)
Definition line_row (p : printed) : option Z :=
  match p with
  | WarnOutOfRange row_index => Some row_index
  | WarnEmpty row_index => Some row_index
  | ProcessedRow row_index _ => Some row_index
  | ProcessedTotal _ => None
  | SegmentStats _ => None
  end.

Definition line_name (p : printed) : option pystr :=
  match p with
  | ProcessedRow _ name => Some name
  | _ => None
  end.

(** The segmentation flags recomputed from the other fields of a record. *)
Definition flags_of (c : contractor) : segmentation :=
  let phone := ci_phone (c_contact_info c) in
  let online := c_online_presence c in
  {| has_valid_email :=
       str_eqb (em_status (ci_email (c_contact_info c))) (py "RECEIVING");
     has_mobile_phone :=
       str_eqb (lower (ph_type phone)) (py "mobile")
       || existsb
            (fun p => truthy (pe_type p)
                      && str_eqb (lower (pe_type p)) (py "mobile"))
            (ph_additional_phones phone);
     has_website := truthy (wp_website (c_web_presence c));
     has_facebook := truthy (sm_facebook (wp_social_media (c_web_presence c)));
     has_reviews := present_and_gt (op_google_reviews_count online) 0;
     high_rating := present_and_ge_4_5 (op_google_rating online);
     established_business :=
       present_and_gt (bd_years_in_business (c_business_details c)) 5;
     is_verified := op_verified online |}.

(** A requested row number that only produces a warning: it is out of
    range, or its row is empty, or the name cell of its row is empty. *)
Definition skipped (hm : gmap pystr nat) (all_rows : list (list pystr))
    (row_index : Z) : bool :=
  (row_index - 1 <? 0) || (Z.of_nat (length all_rows) <=? row_index - 1)
  || match nth (Z.to_nat (row_index - 1)) all_rows [] with
     | [] => true
     | row =>
         match row !! default 0%nat (hm !! py "name") with
         | Some cell => negb (truthy cell)
         | None => false
         end
     end.

(** Two states of the loop with the same records and the same number of
    clock readings. *)
Definition same_records (st1 st2 : run_state) : Prop :=
  rs_contractors st1 = rs_contractors st2
  /\ rs_clock_reads st1 = rs_clock_reads st2.

(** ** Basic facts *)

Lemma bind_Ok {A B : Type} (r : result A) (k : A -> result B) (b : B) :
  (r ≫= k) = Ok b -> exists a, r = Ok a /\ k a = Ok b.
Proof. destruct r as [a|e]; simpl; [eauto | discriminate]. Qed.

Ltac invert_build H :=
  unfold build_contractor in H; cbv zeta in H;
  repeat (apply bind_Ok in H as (? & ? & H));
  injection H as <-;
  cbn [c_id c_basic_info c_contact_info c_web_presence c_business_details
       c_online_presence c_segmentation bi_location loc_state ci_phone
       ph_primary ph_additional_phones wp_website wp_website_details
       wd_has_website bd_year_founded bd_years_in_business bd_description
       op_google_place_id has_website].

Lemma number_with_filter (flag : segmentation -> bool) (l : list contractor) :
  count_where flag l = number_with (fun c => flag (c_segmentation c)) l.
Proof.
  unfold count_where.
  induction l as [|c l IH]; simpl; [reflexivity|].
  destruct (flag (c_segmentation c)); simpl; rewrite IH; reflexivity.
Qed.

Lemma get_value_as_cell {A : Type} hm row (ret : pystr -> A) key default :
  get_value_as hm row ret key default =
    match column_cell hm row key with
    | Some cell => ret (clean_string (Some cell))
    | None => default
    end.
Proof.
  unfold get_value_as, column_cell.
  destruct (hm !! key) as [index|]; simpl; [|reflexivity].
  destruct (Nat.leb_spec (length row) index) as [Hge|Hlt].
  - rewrite (lookup_ge_None_2 row index) by lia. reflexivity.
  - destruct (lookup_lt_is_Some_2 row index Hlt) as [cell Hcell].
    rewrite Hcell. erewrite nth_lookup_Some by eassumption. reflexivity.
Qed.

Lemma process_row_built clock headers all_rows st row_index st' :
  process_row clock headers all_rows st row_index = Ok st' ->
  Forall (built_from clock headers all_rows) (rs_contractors st) ->
  Forall (built_from clock headers all_rows) (rs_contractors st').
Proof.
  unfold process_row. intros Hstep Hst.
  destruct (_ || _) eqn:Hrange.
  { injection Hstep as <-. exact Hst. }
  apply bind_Ok in Hstep as (no_name & _ & Hstep).
  destruct no_name.
  { injection Hstep as <-. exact Hst. }
  apply bind_Ok in Hstep as (c & Hbuild & Hstep).
  injection Hstep as <-. simpl.
  apply Forall_app. split; [exact Hst|].
  apply Forall_cons. split; [|constructor].
  eexists _, _, _. split; [|exact Hbuild].
  apply orb_false_iff in Hrange as [Hlo Hhi].
  apply list_elem_of_lookup. exists (Z.to_nat (row_index - 1)).
  destruct (nth_lookup_or_length all_rows (Z.to_nat (row_index - 1)) [])
    as [Hnth|Hlen]; [exact Hnth | lia].
Qed.

Lemma process_rows_built clock headers all_rows specific_rows st st' :
  process_rows clock headers all_rows st specific_rows = Ok st' ->
  Forall (built_from clock headers all_rows) (rs_contractors st) ->
  Forall (built_from clock headers all_rows) (rs_contractors st').
Proof.
  revert st. induction specific_rows as [|row_index rest IH]; simpl; intros st.
  - intros [= <-]. auto.
  - intros Hrows Hst.
    apply bind_Ok in Hrows as (st1 & Hstep & Hrows).
    eauto using process_row_built.
Qed.

Lemma convert_to_json_built clock headers all_rows specific_rows doc out :
  convert_to_json clock headers all_rows specific_rows = Ok (doc, out) ->
  Forall (built_from clock headers all_rows) (hvac_contractors doc).
Proof.
  unfold convert_to_json. intros Hrun.
  apply bind_Ok in Hrun as (st & Hrows & Hdoc).
  injection Hdoc as <- _. simpl.
  eapply process_rows_built; [exact Hrows|]. constructor.
Qed.

(** ** Segment counts *)

(** C1. Each of the six counts in [meta.segments] is the number of records
    of the final list whose flag is true; on an empty list all six are 0. *)
Theorem segment_counts_match clock headers all_rows specific_rows doc out :
  convert_to_json clock headers all_rows specific_rows = Ok (doc, out) ->
  let s := meta_segments (doc_meta doc) in
  let l := hvac_contractors doc in
  (with_website s = number_with (fun c => has_website (c_segmentation c)) l
   /\ with_valid_email s =
        number_with (fun c => has_valid_email (c_segmentation c)) l
   /\ with_mobile_phone s =
        number_with (fun c => has_mobile_phone (c_segmentation c)) l
   /\ high_rated s = number_with (fun c => high_rating (c_segmentation c)) l
   /\ established s =
        number_with (fun c => established_business (c_segmentation c)) l
   /\ verified s = number_with (fun c => is_verified (c_segmentation c)) l)
  /\ (l = [] ->
      s = {| with_website := 0; with_valid_email := 0;
             with_mobile_phone := 0; high_rated := 0; established := 0;
             verified := 0 |}).
Proof.
  unfold convert_to_json. intros Hrun.
  apply bind_Ok in Hrun as (st & _ & Hdoc).
  injection Hdoc as <- _. simpl. split.
  - repeat split; apply number_with_filter.
  - intros ->. reflexivity.
Qed.

(** ** Facts about one record *)

Lemma get_value_cell hm row key default :
  get_value hm row key default =
    match column_cell hm row key with
    | Some cell => clean_string (Some cell)
    | None => default
    end.
Proof. apply (get_value_as_cell hm row id). Qed.

(** C10. In every record of the output, [website_details.has_website] and
    [segmentation.has_website] agree: both say whether the cleaned [site]
    value of the record's row is non-empty. *)
Theorem has_website_consistent clock headers all_rows specific_rows doc out :
  convert_to_json clock headers all_rows specific_rows = Ok (doc, out) ->
  Forall
    (fun c =>
       wd_has_website (wp_website_details (c_web_presence c)) =
         has_website (c_segmentation c)
       /\ has_website (c_segmentation c) =
            truthy (wp_website (c_web_presence c))
       /\ exists row,
            row ∈ all_rows /\
            wp_website (c_web_presence c) =
              get_value (header_map headers) row (py "site") (py ""))
    (hvac_contractors doc).
Proof.
  intros Hrun. apply convert_to_json_built in Hrun.
  eapply Forall_impl; [exact Hrun|].
  intros c (row & row_index & now & Hrow & Hbuild).
  invert_build Hbuild. eauto.
Qed.

(** C7, as amended. In every record of the output, [years_in_business] is
    the current year minus [year_founded] when [year_founded] is an integer
    other than 0, and none when [year_founded] is none or 0. *)
Theorem years_in_business_nonzero
    clock headers all_rows specific_rows doc out :
  convert_to_json clock headers all_rows specific_rows = Ok (doc, out) ->
  Forall
    (fun c =>
       bd_years_in_business (c_business_details c) =
         match bd_year_founded (c_business_details c) with
         | Some y => if y =? 0 then None else Some (dt_year (clock 0%nat) - y)
         | None => None
         end)
    (hvac_contractors doc).
Proof.
  intros Hrun. apply convert_to_json_built in Hrun.
  eapply Forall_impl; [exact Hrun|].
  intros c (row & row_index & now & Hrow & Hbuild).
  invert_build Hbuild.
  match goal with |- context [match ?yf with Some _ => _ | None => _ end] =>
    destruct yf as [y|]; [destruct (y =? 0)|]; reflexivity end.
Qed.

(** C6, as amended. The alternate column is used only when the first column
    does not resolve to a cell (it is not in the header, or the row is too
    short to hold it). When the first column resolves, its cleaned cell is
    used, although it may be empty. This holds for state, for description,
    and for the text handed to [clean_number] for year-founded. *)
Theorem fallback_on_unresolved_column hm row cy row_index now c :
  build_contractor hm row cy row_index now = Ok c ->
  let state := loc_state (bi_location (c_basic_info c)) in
  let description := bd_description (c_business_details c) in
  let year_founded := bd_year_founded (c_business_details c) in
  ((column_cell hm row (py "state") = None ->
    state = get_value hm row (py "us_state") (py ""))
   /\ (forall cell, column_cell hm row (py "state") = Some cell ->
       state = clean_string (Some cell)))
  /\ ((column_cell hm row (py "description") = None ->
       description =
         get_value hm row (py "site.company_insights.description") (py ""))
      /\ (forall cell, column_cell hm row (py "description") = Some cell ->
          description = clean_string (Some cell)))
  /\ ((column_cell hm row (py "site.company_insights.founded_year") = None ->
       clean_number
         (VStr (get_value hm row (py "company_year_started") (py ""))) =
         Ok year_founded)
      /\ (forall cell,
          column_cell hm row (py "site.company_insights.founded_year") =
            Some cell ->
          clean_number (VStr (clean_string (Some cell))) = Ok year_founded)).
Proof.
  intros Hbuild. invert_build Hbuild.
  repeat match goal with
         | H : get_number _ _ _ _ = _ |- _ => clear H
         end.
  repeat split.
  - intros Hcell. rewrite (get_value_cell hm row (py "state")), Hcell. reflexivity.
  - intros cell Hcell.
    rewrite (get_value_cell hm row (py "state")), Hcell. reflexivity.
  - intros Hcell.
    rewrite (get_value_cell hm row (py "description")), Hcell. reflexivity.
  - intros cell Hcell.
    rewrite (get_value_cell hm row (py "description")), Hcell. reflexivity.
  - intros Hcell.
    match goal with
    | H : clean_number (VStr (get_value _ _
            (py "site.company_insights.founded_year") _)) = _ |- _ =>
        rewrite (get_value_cell hm row
                   (py "site.company_insights.founded_year")), Hcell in H;
        exact H
    end.
  - intros cell Hcell.
    match goal with
    | H : clean_number (VStr (get_value _ _
            (py "site.company_insights.founded_year") _)) = _ |- _ =>
        rewrite (get_value_cell hm row
                   (py "site.company_insights.founded_year")), Hcell in H;
        exact H
    end.
Qed.

(** ** Additional phones *)

Lemma add_phone_inv hm row seed acc phone_field :
  phones_inv seed acc -> phones_inv seed (add_phone hm row acc phone_field).
Proof.
  destruct acc as [phones processed]. unfold add_phone, phones_inv. simpl.
  intros (Hnodup & Hkeys & Hseed).
  destruct (truthy (get_value hm row phone_field (py ""))); [|auto].
  destruct (truthy _); simpl; [|auto].
  case_bool_decide as Hin; simpl; [auto|].
  rewrite map_app. simpl. unfold phone_key at 2 4. simpl.
  split; [|split].
  - apply NoDup_app. split; [exact Hnodup|]. split.
    + intros k Hk Hk'. apply list_elem_of_singleton in Hk' as ->.
      apply Hin, Hkeys, Hk.
    + apply NoDup_singleton.
  - intros k Hk. apply elem_of_app in Hk as [Hk|Hk].
    + destruct (Hkeys k Hk). split; [|assumption].
      apply elem_of_union. right. assumption.
    + apply list_elem_of_singleton in Hk as ->. split.
      * apply elem_of_union. left. apply elem_of_singleton. reflexivity.
      * intros Hk. apply Hin, Hseed, Hk.
  - intros k Hk. apply elem_of_union. right. apply Hseed, Hk.
Qed.

Lemma dedup_phones_unfold hm row phone :
  dedup_phones hm row phone =
    add_phone hm row
      (add_phone hm row
         (add_phone hm row ([], seed_processed phone) (py "phone_1"))
         (py "phone_2"))
      (py "phone_3").
Proof. reflexivity. Qed.

Lemma add_phone_empty hm row acc phone_field :
  get_value hm row phone_field (py "") = py "" ->
  add_phone hm row acc phone_field = acc.
Proof.
  intros Hval. unfold add_phone. rewrite Hval. destruct acc. reflexivity.
Qed.

Lemma add_phone_seen hm row phones processed phone_field :
  digits_only (get_value hm row phone_field (py "")) ∈ processed ->
  add_phone hm row (phones, processed) phone_field = (phones, processed).
Proof.
  intros Hin. unfold add_phone.
  destruct (truthy (get_value _ _ _ _)); [|reflexivity].
  rewrite (bool_decide_true _ Hin), andb_false_r. reflexivity.
Qed.

Lemma dedup_phones_inv hm row phone :
  phones_inv (seed_processed phone) (dedup_phones hm row phone).
Proof.
  unfold dedup_phones.
  assert (Hinit : phones_inv (seed_processed phone) ([], seed_processed phone)).
  { unfold phones_inv. simpl. split; [constructor|]. split; [|done].
    intros k Hk. inversion Hk. }
  revert Hinit. generalize ([] : list phone_entry, seed_processed phone).
  induction phone_fields as [|f fs IH]; simpl; intros acc Hacc; [exact Hacc|].
  apply IH, add_phone_inv, Hacc.
Qed.

Lemma digits_only_ascii s :
  is_ascii s -> digits_only s = List.filter is_digit s.
Proof.
  unfold digits_only. induction 1 as [|c s Hc Hs IH]; simpl; [reflexivity|].
  rewrite IH, (to_decimal_ascii c Hc). unfold ascii_decimal, is_digit.
  destruct (_ && _); reflexivity.
Qed.

(** C2. In every record of the output, the entries of the additional-phones
    list have pairwise different digits-only numbers, and none of them has
    the digits-only number of a non-empty primary phone. With primary phone
    "(555) 123-4567", phone_1 "555-123-4567" and no further phone, the list
    is empty. *)
Theorem additional_phones_distinct :
  (forall clock headers all_rows specific_rows doc out,
     convert_to_json clock headers all_rows specific_rows = Ok (doc, out) ->
     Forall
       (fun c =>
          let phone := ci_phone (c_contact_info c) in
          NoDup (map phone_key (ph_additional_phones phone))
          /\ (truthy (ph_primary phone) = true ->
              digits_only (ph_primary phone)
                ∉ map phone_key (ph_additional_phones phone)))
       (hvac_contractors doc))
  /\ (forall hm row cy row_index now c,
        build_contractor hm row cy row_index now = Ok c ->
        get_value hm row (py "phone") (py "") = py "(555) 123-4567" ->
        get_value hm row (py "phone_1") (py "") = py "555-123-4567" ->
        get_value hm row (py "phone_2") (py "") = py "" ->
        get_value hm row (py "phone_3") (py "") = py "" ->
        ph_primary (ci_phone (c_contact_info c)) = py "(555) 123-4567"
        /\ ph_additional_phones (ci_phone (c_contact_info c)) = []).
Proof.
  split.
  - intros clock headers all_rows specific_rows doc out Hrun.
    apply convert_to_json_built in Hrun.
    eapply Forall_impl; [exact Hrun|].
    intros c (row & row_index & now & Hrow & Hbuild).
    invert_build Hbuild.
    destruct (dedup_phones_inv (header_map headers) row
                (get_value (header_map headers) row (py "phone") (py "")))
      as (Hnodup & Hkeys & _).
    split; [exact Hnodup|].
    intros Hphone Hin. apply Hkeys in Hin as [_ Hseed].
    apply Hseed. unfold seed_processed. rewrite Hphone.
    apply elem_of_singleton. reflexivity.
  - intros hm row cy row_index now c Hbuild Hphone H1 H2 H3.
    invert_build Hbuild. split; [exact Hphone|].
    rewrite Hphone, dedup_phones_unfold.
    rewrite (add_phone_seen hm row [] _ (py "phone_1")).
    + rewrite !add_phone_empty by assumption. reflexivity.
    + rewrite H1. unfold seed_processed.
      replace (truthy (py "(555) 123-4567")) with true by reflexivity.
      rewrite !digits_only_ascii by solve_ascii.
      apply elem_of_singleton. reflexivity.
Qed.

(** ** Hours *)

Lemma str_eqb_eq (s t : pystr) : str_eqb s t = true <-> s = t.
Proof. unfold str_eqb. apply bool_decide_eq_true. Qed.

Lemma str_eqb_refl (s : pystr) : str_eqb s s = true.
Proof. apply str_eqb_eq. reflexivity. Qed.

Lemma dict_get_set_eq {V : Type} (k : pystr) (v : V) d :
  dict_get k (dict_set k v d) = Some v.
Proof.
  induction d as [|[k' v'] d IH]; simpl.
  - rewrite str_eqb_refl. reflexivity.
  - destruct (str_eqb k' k) eqn:Hk; simpl; rewrite Hk; auto.
Qed.

Lemma dict_get_set_ne {V : Type} (k k0 : pystr) (v : V) d :
  k0 <> k -> dict_get k (dict_set k0 v d) = dict_get k d.
Proof.
  intros Hne. induction d as [|[k' v'] d IH]; simpl.
  - destruct (str_eqb k0 k) eqn:Hk; [|reflexivity].
    apply str_eqb_eq in Hk. contradiction.
  - destruct (str_eqb k' k0) eqn:Hk0; simpl.
    + apply str_eqb_eq in Hk0 as ->.
      destruct (str_eqb k0 k) eqn:Hk; [|reflexivity].
      apply str_eqb_eq in Hk. contradiction.
    + rewrite IH. reflexivity.
Qed.

Lemma dict_set_keys {V : Type} (k k0 : pystr) (v : V) d :
  k ∈ map fst (dict_set k0 v d) -> k = k0 \/ k ∈ map fst d.
Proof.
  induction d as [|[k' v'] d IH]; simpl.
  - intros Hk. apply list_elem_of_singleton in Hk. auto.
  - destruct (str_eqb k' k0) eqn:Hk0; simpl; [auto|].
    intros Hk. apply elem_of_cons in Hk as [->|Hk].
    + right. apply elem_of_cons. auto.
    + destruct (IH Hk) as [->|Hd]; [auto|].
      right. apply elem_of_cons. auto.
Qed.

Lemma dict_set_NoDup {V : Type} (k0 : pystr) (v : V) d :
  NoDup (map fst d) -> NoDup (map fst (dict_set k0 v d)).
Proof.
  induction d as [|[k' v'] d IH]; simpl; intros Hd.
  - apply NoDup_singleton.
  - apply NoDup_cons in Hd as [Hk' Hd].
    destruct (str_eqb k' k0) eqn:Hk0; simpl.
    + apply NoDup_cons. auto.
    + apply NoDup_cons. split; [|auto].
      intros Hin. apply dict_set_keys in Hin as [->|Hin]; [|auto].
      rewrite str_eqb_refl in Hk0. discriminate.
Qed.

Lemma add_day_entry hours_obj day_hour :
  add_day hours_obj day_hour =
    match day_entry day_hour with
    | Some (day, time) => dict_set day (OStr time) hours_obj
    | None => hours_obj
    end.
Proof.
  unfold add_day, day_entry.
  destruct (split (chr ":") day_hour) as [|day [|time [|]]]; reflexivity.
Qed.

Lemma fold_add_day_get entries hours_obj k :
  dict_get k (fold_left add_day entries hours_obj) =
    match last_time (omap day_entry entries) k with
    | Some t => Some (OStr t)
    | None => dict_get k hours_obj
    end.
Proof.
  revert hours_obj.
  induction entries as [|e entries IH]; intros hours_obj; [reflexivity|].
  cbn [fold_left]. rewrite IH, add_day_entry.
  change (omap day_entry (e :: entries))
    with (match day_entry e with
          | Some p => p :: omap day_entry entries
          | None => omap day_entry entries
          end).
  destruct (day_entry e) as [[day time]|]; [|reflexivity].
  cbn [last_time].
  destruct (last_time (omap day_entry entries) k); [reflexivity|].
  destruct (str_eqb day k) eqn:Hk.
  - apply str_eqb_eq in Hk as ->. apply dict_get_set_eq.
  - apply dict_get_set_ne. intros ->. rewrite str_eqb_refl in Hk.
    discriminate.
Qed.

Lemma fold_add_day_NoDup entries hours_obj :
  NoDup (map fst hours_obj) ->
  NoDup (map fst (fold_left add_day entries hours_obj)).
Proof.
  revert hours_obj.
  induction entries as [|e entries IH]; intros hours_obj Hd; simpl;
    [exact Hd|].
  apply IH. rewrite add_day_entry.
  destruct (day_entry e) as [[day time]|]; [|exact Hd].
  apply dict_set_NoDup, Hd.
Qed.

Lemma parse_hours_brace s :
  startswith (chr "{") s = true ->
  parse_hours s =
    match json_loads (replace (chr "'") dquote s) with
    | Some hours_obj => hours_obj
    | None => raw_hours s
    end.
Proof.
  unfold parse_hours. destruct s as [|c s]; simpl; [discriminate|].
  intros Hc. apply N.eqb_eq in Hc as ->.
  unfold str_eqb. rewrite bool_decide_false by discriminate. reflexivity.
Qed.

Lemma parse_hours_other s :
  s <> py "" -> s <> py "None" -> startswith (chr "{") s = false ->
  parse_hours s =
    if contains (chr "|") s
    then ODict (fold_left add_day (split (chr "|") s) [])
    else raw_hours s.
Proof.
  intros Hne Hnone Hbrace. unfold parse_hours.
  destruct s as [|c s]; [contradiction|].
  unfold str_eqb. rewrite bool_decide_false by assumption.
  rewrite Hbrace. reflexivity.
Qed.

(** C4, as amended. [parse_hours] takes the first policy that applies:
    the empty string and the literal "None" give the empty mapping; text
    that begins with "{" has its single quotes rewritten to double quotes and
    is read as JSON, and gives [{"raw_hours": text}] when that fails, whether
    or not it holds a "|"; other text with a "|" is split on "|", each entry
    that splits on ":" in exactly two parts setting its lower-cased day key
    (the last entry of a key wins, the others are dropped); any other text
    gives [{"raw_hours": text}]. The four examples hold. *)
Theorem parse_hours_policy :
  (parse_hours (py "") = ODict [] /\ parse_hours (py "None") = ODict [])
  /\ (forall s, startswith (chr "{") s = true ->
      parse_hours s =
        match json_loads (replace (chr "'") dquote s) with
        | Some hours_obj => hours_obj
        | None => raw_hours s
        end)
  /\ (forall s, s <> py "" -> s <> py "None" ->
      startswith (chr "{") s = false -> contains (chr "|") s = true ->
      exists d,
        parse_hours s = ODict d /\ NoDup (map fst d)
        /\ forall k,
             dict_get k d =
               OStr <$> last_time (omap day_entry (split (chr "|") s)) k)
  /\ (forall s, s <> py "" -> s <> py "None" ->
      startswith (chr "{") s = false -> contains (chr "|") s = false ->
      parse_hours s = raw_hours s)
  /\ (parse_hours (py "mon:9-5|tue:9-5") =
        ODict [(py "mon", OStr (py "9-5")); (py "tue", OStr (py "9-5"))]
      /\ parse_hours (py "{'mon': '9-5'}") =
           ODict [(py "mon", OStr (py "9-5"))]
      /\ parse_hours (py "closed sundays") =
           ODict [(py "raw_hours", OStr (py "closed sundays"))]
      /\ parse_hours (py "") = ODict []).
Proof.
  split; [split; reflexivity|].
  split; [exact parse_hours_brace|].
  split.
  { intros s Hne Hnone Hbrace Hpipe.
    rewrite parse_hours_other, Hpipe by assumption.
    eexists. split; [reflexivity|]. split.
    - apply fold_add_day_NoDup. constructor.
    - intros k. rewrite fold_add_day_get.
      destruct (last_time _ k); reflexivity. }
  split.
  { intros s Hne Hnone Hbrace Hpipe.
    rewrite parse_hours_other, Hpipe by assumption. reflexivity. }
  split; [|split; [|split]].
  - rewrite parse_hours_other by (reflexivity || discriminate).
    change (contains (chr "|") (py "mon:9-5|tue:9-5")) with true.
    change (split (chr "|") (py "mon:9-5|tue:9-5"))
      with [py "mon:9-5"; py "tue:9-5"].
    cbn [fold_left]. unfold add_day.
    change (split (chr ":") (py "mon:9-5")) with [py "mon"; py "9-5"].
    change (split (chr ":") (py "tue:9-5")) with [py "tue"; py "9-5"].
    cbv iota. rewrite !lower_ascii by solve_ascii. reflexivity.
  - rewrite parse_hours_brace by reflexivity.
    rewrite (json_loads_flat _ (ODict [(py "mon", OStr (py "9-5"))]));
      reflexivity.
  - rewrite parse_hours_other by (reflexivity || discriminate). reflexivity.
  - reflexivity.
Qed.

(** ** Two runs on the same input *)

Lemma build_contractor_clock hm row cy row_index now1 now2 :
  same_outcome (fun c1 c2 => scrub_id c1 = scrub_id c2
                             /\ c_segmentation c1 = c_segmentation c2)
    (build_contractor hm row cy row_index now1)
    (build_contractor hm row cy row_index now2).
Proof.
  unfold build_contractor. cbv zeta.
  repeat match goal with
         | |- context [@mbind result _ _ _ _ ?r] =>
             destruct r as [?|?]; cbn [mbind result_bind];
             [|reflexivity]
         end.
  cbn [same_outcome]. unfold scrub_id.
  cbn [c_online_presence op_google_place_id c_segmentation].
  split; [|reflexivity].
  destruct (truthy (get_value hm row (py "place_id") (py ""))); reflexivity.
Qed.

Lemma count_where_segmentation flag l1 l2 :
  map (fun c => c_segmentation c) l1 = map (fun c => c_segmentation c) l2 ->
  count_where flag l1 = count_where flag l2.
Proof.
  unfold count_where. revert l2.
  induction l1 as [|c1 l1 IH]; intros [|c2 l2]; simpl; try discriminate;
    [reflexivity|].
  intros [= Hc Hl]. rewrite Hc.
  destruct (flag (c_segmentation c2)); simpl; rewrite (IH l2 Hl); reflexivity.
Qed.

Lemma process_row_clock clock1 clock2 headers all_rows st1 st2 row_index :
  dt_year (clock1 0%nat) = dt_year (clock2 0%nat) ->
  same_state st1 st2 ->
  same_outcome same_state
    (process_row clock1 headers all_rows st1 row_index)
    (process_row clock2 headers all_rows st2 row_index).
Proof.
  intros Hyear (Hcs & Hsegs & Hout & Hreads). unfold process_row.
  destruct (_ || _).
  { cbn. unfold same_state. cbn. rewrite Hout. auto. }
  match goal with
  | |- context [@mbind result _ _ _ _ ?r] =>
      destruct r as [no_name|?]; cbn [mbind result_bind]; [|reflexivity]
  end.
  destruct no_name.
  { cbn. unfold same_state. cbn. rewrite Hout. auto. }
  unfold current_year. rewrite Hyear.
  pose proof (build_contractor_clock (header_map headers)
                (nth (Z.to_nat (row_index - 1)) all_rows [])
                (dt_year (clock2 0%nat)) row_index
                (clock1 (rs_clock_reads st1)) (clock2 (rs_clock_reads st2)))
    as Hbuild.
  destruct (build_contractor _ _ _ _ (clock1 _)) as [c1|e1],
           (build_contractor _ _ _ _ (clock2 _)) as [c2|e2];
    cbn [same_outcome mbind result_bind] in *; try contradiction;
    [|exact Hbuild].
  destruct Hbuild as [Hc Hseg]. unfold same_state.
  cbn [rs_contractors rs_printed rs_clock_reads].
  rewrite !map_app, Hcs, Hsegs, Hout, Hreads. cbn [map].
  rewrite Hc, Hseg. auto.
Qed.

Lemma process_rows_clock clock1 clock2 headers all_rows specific_rows :
  dt_year (clock1 0%nat) = dt_year (clock2 0%nat) ->
  forall st1 st2, same_state st1 st2 ->
  same_outcome same_state
    (process_rows clock1 headers all_rows st1 specific_rows)
    (process_rows clock2 headers all_rows st2 specific_rows).
Proof.
  intros Hyear.
  induction specific_rows as [|row_index rest IH]; intros st1 st2 Hst;
    cbn [process_rows]; [exact Hst|].
  pose proof (process_row_clock clock1 clock2 headers all_rows st1 st2
                row_index Hyear Hst) as Hstep.
  destruct (process_row clock1 _ _ st1 _) as [s1|e1],
           (process_row clock2 _ _ st2 _) as [s2|e2];
    cbn [same_outcome mbind result_bind] in *; try contradiction;
    [apply IH, Hstep | exact Hstep].
Qed.

(** C9, as amended. Two runs on the same table and the same requested rows
    that read the same current year end alike: both raise the same
    exception, or both print the same lines and give documents that are
    equal once the ids of records without a place id and [generated_at] are
    left out. *)
Theorem rerun_same_year clock1 clock2 headers all_rows specific_rows :
  dt_year (clock1 0%nat) = dt_year (clock2 0%nat) ->
  same_outcome
    (fun r1 r2 => scrub_document r1.1 = scrub_document r2.1 /\ r1.2 = r2.2)
    (convert_to_json clock1 headers all_rows specific_rows)
    (convert_to_json clock2 headers all_rows specific_rows).
Proof.
  intros Hyear. unfold convert_to_json.
  pose proof (process_rows_clock clock1 clock2 headers all_rows specific_rows
                Hyear
                {| rs_contractors := []; rs_printed := [];
                   rs_clock_reads := 1 |}
                {| rs_contractors := []; rs_printed := [];
                   rs_clock_reads := 1 |}) as Hrows.
  destruct (process_rows clock1 _ _ _ _) as [s1|e1],
           (process_rows clock2 _ _ _ _) as [s2|e2];
    cbn [same_outcome mbind result_bind] in *;
    try (apply Hrows; repeat split; reflexivity).
  destruct Hrows as (Hcs & Hsegs & Hout & _); [repeat split; reflexivity|].
  assert (Hlen : length (rs_contractors s1) = length (rs_contractors s2)).
  { rewrite <- (length_map scrub_id (rs_contractors s1)), Hcs.
    apply length_map. }
  assert (Hstats : segment_stats (rs_contractors s1) =
                   segment_stats (rs_contractors s2)).
  { unfold segment_stats.
    rewrite !(count_where_segmentation _ _ _ Hsegs). reflexivity. }
  unfold scrub_document.
  cbn [fst snd hvac_contractors doc_meta total_count meta_segments
       processed_rows].
  rewrite Hcs, Hlen, Hstats, Hout. split; reflexivity.
Qed.

(** ** Rows that are skipped, rows that are processed, rows that abort *)

Lemma process_row_out_of_range clock headers all_rows st row_index :
  row_index < 1 \/ Z.of_nat (length all_rows) < row_index ->
  process_row clock headers all_rows st row_index =
    Ok (warn st (WarnOutOfRange row_index)).
Proof.
  intros Hrange. unfold process_row.
  replace ((row_index - 1 <? 0)
           || (Z.of_nat (length all_rows) <=? row_index - 1)) with true;
    [reflexivity|].
  symmetry. apply orb_true_iff. lia.
Qed.

Lemma process_row_empty clock headers all_rows st row_index :
  1 <= row_index <= Z.of_nat (length all_rows) ->
  nth (Z.to_nat (row_index - 1)) all_rows [] = [] ->
  process_row clock headers all_rows st row_index =
    Ok (warn st (WarnEmpty row_index)).
Proof.
  intros Hrange Hrow. unfold process_row.
  replace ((row_index - 1 <? 0)
           || (Z.of_nat (length all_rows) <=? row_index - 1)) with false
    by (symmetry; apply orb_false_iff; lia).
  rewrite Hrow. reflexivity.
Qed.

Lemma process_row_no_name clock headers all_rows st row_index :
  1 <= row_index <= Z.of_nat (length all_rows) ->
  nth (Z.to_nat (row_index - 1)) all_rows []
    !! default 0%nat (header_map headers !! py "name") = Some (py "") ->
  process_row clock headers all_rows st row_index =
    Ok (warn st (WarnEmpty row_index)).
Proof.
  intros Hrange Hname. unfold process_row.
  replace ((row_index - 1 <? 0)
           || (Z.of_nat (length all_rows) <=? row_index - 1)) with false
    by (symmetry; apply orb_false_iff; lia).
  cbv zeta. unfold index_row. rewrite Hname.
  destruct (nth _ all_rows []); reflexivity.
Qed.

(** A row in range with a non-empty name cell adds exactly one record,
    provided that building the record raises nothing. *)
Lemma process_row_appends clock headers all_rows st row_index
    (cell : pystr) c :
  1 <= row_index <= Z.of_nat (length all_rows) ->
  let row := nth (Z.to_nat (row_index - 1)) all_rows [] in
  row !! default 0%nat (header_map headers !! py "name") = Some cell ->
  cell <> [] ->
  build_contractor (header_map headers) row (current_year clock) row_index
    (clock (rs_clock_reads st)) = Ok c ->
  exists st',
    process_row clock headers all_rows st row_index = Ok st'
    /\ rs_contractors st' = rs_contractors st ++ [c].
Proof.
  intros Hrange row Hname Hcell Hbuild. unfold process_row.
  replace ((row_index - 1 <? 0)
           || (Z.of_nat (length all_rows) <=? row_index - 1)) with false
    by (symmetry; apply orb_false_iff; lia).
  cbv zeta. fold row. unfold index_row. rewrite Hname.
  destruct row as [|c0 row'] eqn:Hrow; [discriminate Hname|].
  destruct cell as [|ch cell]; [contradiction|].
  cbn [truthy negb mbind result_bind]. rewrite Hbuild.
  cbn [mbind result_bind]. eexists. split; reflexivity.
Qed.

(** On ASCII text [get_boolean] compares the upper-cased cell with "TRUE". *)
Lemma get_boolean_ascii hm row key default :
  is_ascii (get_value hm row key (py "")) ->
  get_boolean hm row key default =
    if truthy (get_value hm row key (py ""))
    then str_eqb (map ascii_upper (get_value hm row key (py ""))) (py "TRUE")
    else default.
Proof.
  intros Hascii. unfold get_boolean. rewrite (upper_ascii _ Hascii).
  reflexivity.
Qed.

(** The name "Bob's A/C & Heating!!" gives the slug "bob-s-a-c-heating". *)
Lemma slug_example :
  make_slug (py "Bob's A/C & Heating!!") = py "bob-s-a-c-heating".
Proof.
  unfold make_slug. rewrite lower_ascii by solve_ascii. reflexivity.
Qed.

(** X2. A requested row number outside the rows of the table prints one
    warning and adds no record; the loop goes on with the rows requested
    after it. *)
Theorem out_of_range_row_skipped clock headers all_rows st row_index rest :
  row_index < 1 \/ Z.of_nat (length all_rows) < row_index ->
  process_rows clock headers all_rows st (row_index :: rest) =
    process_rows clock headers all_rows
      {| rs_contractors := rs_contractors st;
         rs_printed := rs_printed st ++ [WarnOutOfRange row_index];
         rs_clock_reads := rs_clock_reads st |}
      rest.
Proof.
  intros Hrange. cbn [process_rows].
  rewrite process_row_out_of_range by exact Hrange. reflexivity.
Qed.

(** [clean_number] on the examples: none for a null value, for "None" and
    for the empty string, 42 for "42.9", none for "abc". *)
Lemma clean_number_examples :
  clean_number VNone = Ok None
  /\ clean_number (VStr (py "None")) = Ok None
  /\ clean_number (VStr (py "")) = Ok None
  /\ clean_number (VStr (py "42.9")) = Ok (Some 42)
  /\ clean_number (VStr (py "abc")) = Ok None.
Proof. repeat split; vm_compute; reflexivity. Qed.

Lemma clean_number_parse_failure n :
  float_of n = Raise ValueError \/ float_of n = Raise TypeError ->
  clean_number n = Ok None.
Proof.
  intros Hfloat. unfold clean_number.
  destruct (is_none_token n); [reflexivity|].
  destruct Hfloat as [-> | ->]; reflexivity.
Qed.

(** C8. On the text "inf" (and on "1e999", which [float] reads as
    infinity) [clean_number] raises [OverflowError]: the conversion to an
    integer fails and the handler catches only [ValueError] and
    [TypeError]. *)
Theorem clean_number_infinity_raises :
  clean_number (VStr (py "inf")) = Raise OverflowError
  /\ clean_number (VStr (py "1e999")) = Raise OverflowError.
Proof. split; vm_compute; reflexivity. Qed.

(** C3. A requested row that is shorter than the position of the name
    column raises [IndexError]: the run ends there, and the valid row
    requested after it is not processed. *)
Theorem short_row_aborts_run clock :
  convert_to_json clock [py "place_id"; py "name"]
    [[py "ChIJ1"]; [py "ChIJ2"; py "Acme"]] [1; 2] = Raise IndexError.
Proof. vm_compute. reflexivity. Qed.

(** C5. A row in range with a non-empty name whose reviews cell reads
    "inf" gives no record: the run raises [OverflowError]. *)
Theorem infinite_cell_aborts_run clock :
  convert_to_json clock [py "name"; py "reviews"]
    [[py "Acme"; py "inf"]] [1] = Raise OverflowError.
Proof. vm_compute. reflexivity. Qed.

(** ** Further properties of the code *)

Lemma lstrip_with_split p s :
  exists pre, s = pre ++ lstrip_with p s /\ Forall (fun c => p c = true) pre.
Proof.
  induction s as [|c s IH]; simpl.
  - exists []. split; [reflexivity | constructor].
  - destruct (p c) eqn:Hc.
    + destruct IH as (pre & Hs & Hpre). exists (c :: pre). split.
      * simpl. f_equal. exact Hs.
      * constructor; assumption.
    + exists []. split; [reflexivity | constructor].
Qed.

Lemma lstrip_with_head p s c :
  head (lstrip_with p s) = Some c -> p c = false.
Proof.
  induction s as [|c0 s IH]; simpl; [discriminate|].
  destruct (p c0) eqn:Hc; [exact IH|].
  simpl. intros [= <-]. exact Hc.
Qed.

Lemma lstrip_with_id p s :
  (forall c, head s = Some c -> p c = false) -> lstrip_with p s = s.
Proof.
  destruct s as [|c s]; simpl; [reflexivity|].
  intros Hc. rewrite (Hc c eq_refl). reflexivity.
Qed.

Lemma rstrip_with_split p s :
  exists post, s = rstrip_with p s ++ post /\ Forall (fun c => p c = true) post.
Proof.
  unfold rstrip_with.
  destruct (lstrip_with_split p (rev s)) as (pre & Hs & Hpre).
  exists (rev pre). split.
  - rewrite <- rev_app_distr, <- Hs, rev_involutive. reflexivity.
  - apply Forall_rev. exact Hpre.
Qed.

Lemma last_rev_head {A : Type} (l : list A) : last (rev l) = head l.
Proof. destruct l as [|a l]; simpl; [reflexivity | apply last_snoc]. Qed.

Lemma rstrip_with_last p s c :
  last (rstrip_with p s) = Some c -> p c = false.
Proof.
  unfold rstrip_with. rewrite last_rev_head. apply lstrip_with_head.
Qed.

Lemma rstrip_with_head p s c :
  p c = false -> head s = Some c -> head (rstrip_with p s) = Some c.
Proof.
  intros Hc Hs. destruct s as [|c0 s]; [discriminate|].
  simpl in Hs. injection Hs as ->.
  destruct (rstrip_with_split p (c :: s)) as (post & Heq & Hpost).
  destruct (rstrip_with p (c :: s)) as [|c1 r].
  - simpl in Heq. subst post. apply Forall_cons in Hpost as [Hp _].
    congruence.
  - simpl in Heq. injection Heq as -> _. reflexivity.
Qed.

Lemma strip_with_split p s :
  exists pre post,
    s = pre ++ strip_with p s ++ post
    /\ Forall (fun c => p c = true) pre /\ Forall (fun c => p c = true) post.
Proof.
  unfold strip_with.
  destruct (lstrip_with_split p s) as (pre & Hs & Hpre).
  destruct (rstrip_with_split p (lstrip_with p s)) as (post & Ht & Hpost).
  exists pre, post. split; [|auto].
  rewrite <- Ht. exact Hs.
Qed.

Lemma strip_with_head p s c :
  head (strip_with p s) = Some c -> p c = false.
Proof.
  unfold strip_with. intros Hhead.
  destruct (lstrip_with p s) as [|c0 t] eqn:Ht.
  - discriminate Hhead.
  - assert (Hc0 : p c0 = false).
    { apply (lstrip_with_head p s). rewrite Ht. reflexivity. }
    rewrite (rstrip_with_head p (c0 :: t) c0 Hc0 eq_refl) in Hhead.
    injection Hhead as <-. exact Hc0.
Qed.

Lemma strip_with_last p s c :
  last (strip_with p s) = Some c -> p c = false.
Proof. unfold strip_with. apply rstrip_with_last. Qed.

Lemma rstrip_with_id p s :
  (forall c, last s = Some c -> p c = false) -> rstrip_with p s = s.
Proof.
  intros Hc. unfold rstrip_with. rewrite lstrip_with_id.
  - apply rev_involutive.
  - intros c Hhead. apply Hc. rewrite <- (rev_involutive s), last_rev_head.
    exact Hhead.
Qed.

Lemma strip_with_idempotent p s :
  strip_with p (strip_with p s) = strip_with p s.
Proof.
  unfold strip_with at 1.
  rewrite lstrip_with_id by apply strip_with_head.
  apply rstrip_with_id, strip_with_last.
Qed.


Lemma sub_runs_chars keep rep in_run s :
  Forall (fun c => keep c = true \/ c = rep) (sub_runs keep rep in_run s).
Proof.
  revert in_run. induction s as [|c s IH]; intros in_run; simpl;
    [constructor|].
  destruct (keep c) eqn:Hc; [constructor; auto|].
  destruct in_run; [apply IH|]. constructor; auto.
Qed.

Lemma sub_runs_filter keep rep in_run s :
  keep rep = false ->
  List.filter keep (sub_runs keep rep in_run s) = List.filter keep s.
Proof.
  intros Hrep. revert in_run.
  induction s as [|c s IH]; intros in_run; simpl; [reflexivity|].
  destruct (keep c) eqn:Hc; simpl.
  - rewrite Hc, IH. reflexivity.
  - destruct in_run; simpl; [apply IH|]. rewrite Hrep. apply IH.
Qed.

Lemma sub_runs_no_adjacent keep rep s :
  keep rep = false ->
  forall in_run,
    (in_run = true -> head (sub_runs keep rep in_run s) <> Some rep)
    /\ forall l1 l2, sub_runs keep rep in_run s <> l1 ++ [rep; rep] ++ l2.
Proof.
  intros Hrep. induction s as [|c s IH]; intros in_run; simpl.
  - split; [discriminate|]. intros [|? ?] l2; discriminate.
  - destruct (keep c) eqn:Hc.
    + split.
      * intros _ [= ->]. congruence.
      * intros [|c1 l1] l2; simpl; intros [= Hhead Htail].
        -- congruence.
        -- exact (proj2 (IH false) l1 l2 Htail).
    + destruct in_run.
      * apply IH.
      * split; [discriminate|].
        intros [|c1 l1] l2; simpl; intros Heq.
        -- injection Heq as Htail.
           apply (proj1 (IH true) eq_refl). rewrite Htail. reflexivity.
        -- injection Heq as _ Htail.
           exact (proj2 (IH true) l1 l2 Htail).
Qed.

Lemma strip_with_filter p keep s :
  (forall c, p c = true -> keep c = false) ->
  List.filter keep (strip_with p s) = List.filter keep s.
Proof.
  intros Hp.
  assert (Hnil : forall l, Forall (fun c => p c = true) l ->
                           List.filter keep l = []).
  { induction 1 as [|c l Hc _ IH]; simpl; [reflexivity|].
    rewrite (Hp c Hc). exact IH. }
  destruct (strip_with_split p s) as (pre & post & Hs & Hpre & Hpost).
  rewrite Hs at 2. rewrite !List.filter_app, (Hnil pre Hpre), (Hnil post Hpost).
  rewrite app_nil_r. reflexivity.
Qed.

(** X1. For every name, the slug holds only the characters a-z, 0-9 and
    "-", neither begins nor ends with "-", has no two "-" in a row, and
    keeps every a-z and 0-9 character of the lower-cased name, in order. *)
Theorem slug_shape name :
  let slug := make_slug name in
  Forall (fun c => is_slug_char c = true \/ c = chr "-") slug
  /\ head slug <> Some (chr "-")
  /\ last slug <> Some (chr "-")
  /\ (forall l1 l2, slug <> l1 ++ [chr "-"; chr "-"] ++ l2)
  /\ List.filter is_slug_char slug = List.filter is_slug_char (lower name).
Proof.
  unfold make_slug.
  set (hyphen := fun c : N => (c =? chr "-")%N).
  set (runs := sub_runs is_slug_char (chr "-") false (lower name)).
  destruct (strip_with_split hyphen runs) as (pre & post & Hruns & _ & _).
  split; [|split; [|split; [|split]]].
  - pose proof (sub_runs_chars is_slug_char (chr "-") false (lower name))
      as Hchars.
    fold runs in Hchars. rewrite Hruns in Hchars.
    apply Forall_app in Hchars as [_ Hchars].
    apply Forall_app in Hchars as [Hchars _]. exact Hchars.
  - intros Hhead. apply strip_with_head in Hhead. discriminate Hhead.
  - intros Hlast. apply strip_with_last in Hlast. discriminate Hlast.
  - intros l1 l2 Hslug.
    apply (proj2 (sub_runs_no_adjacent is_slug_char (chr "-") (lower name)
                    eq_refl false) (pre ++ l1) (l2 ++ post)).
    fold runs. rewrite Hruns, Hslug, <- !app_assoc. reflexivity.
  - rewrite strip_with_filter.
    + apply sub_runs_filter. reflexivity.
    + intros c Hc. apply N.eqb_eq in Hc as ->. reflexivity.
Qed.

Lemma strip_with_nil p s :
  strip_with p s = [] <-> Forall (fun c => p c = true) s.
Proof.
  split.
  - intros Hnil.
    destruct (strip_with_split p s) as (pre & post & Hs & Hpre & Hpost).
    rewrite Hs, Hnil. apply Forall_app. split; [exact Hpre|exact Hpost].
  - intros Hall. unfold strip_with.
    assert (Hl : lstrip_with p s = []).
    { induction Hall as [|c l Hc _ IH]; simpl; [reflexivity|].
      rewrite Hc. exact IH. }
    rewrite Hl. reflexivity.
Qed.

(** X5. The result of [clean_string] neither begins nor ends with
    whitespace; it is empty exactly for a null value, for the literal
    "None", and for text made of whitespace only (the empty string
    included). *)
Theorem clean_string_trimmed (x : option pystr) :
  (forall c, head (clean_string x) = Some c -> isspace c = false)
  /\ (forall c, last (clean_string x) = Some c -> isspace c = false)
  /\ (clean_string x = py "" <->
      match x with
      | None => True
      | Some s => s = py "None" \/ Forall (fun c => isspace c = true) s
      end).
Proof.
  destruct x as [s|]; simpl.
  2:{ split; [discriminate|]. split; [discriminate|]. tauto. }
  unfold str_eqb. case_bool_decide as Hnone; simpl.
  { split; [discriminate|]. split; [discriminate|]. tauto. }
  case_bool_decide as Hempty; simpl.
  { split; [discriminate|]. split; [discriminate|].
    split; [|reflexivity]. intros _. right. rewrite Hempty. constructor. }
  split; [apply strip_with_head|]. split; [apply strip_with_last|].
  unfold strip. change (py "") with (@nil N). rewrite strip_with_nil.
  split; [auto|]. intros [?|?]; [contradiction|assumption].
Qed.


Lemma last_index_sound key headers :
  (forall i, last_index key headers = Some i ->
     headers !! i = Some key
     /\ forall j, (i < j)%nat -> headers !! j <> Some key)
  /\ (last_index key headers = None ->
      forall j, headers !! j <> Some key).
Proof.
  induction headers as [|h rest [IHsome IHnone]]; simpl.
  - split; [discriminate|]. intros _ j Hj. discriminate Hj.
  - destruct (last_index key rest) as [i'|].
    + split; [|discriminate].
      intros i [= <-]. destruct (IHsome i' eq_refl) as [Hi' Hafter].
      split; [exact Hi'|].
      intros [|j] Hj; [lia|]. simpl. apply Hafter. lia.
    + unfold str_eqb. case_bool_decide as Hh.
      * split; [|discriminate].
        intros i [= <-]. simpl. split; [congruence|].
        intros [|j] Hj; [lia|]. simpl. apply IHnone. reflexivity.
      * split; [discriminate|].
        intros _ [|j]; simpl; [congruence|]. apply IHnone. reflexivity.
Qed.

Lemma last_index_spec key headers i :
  last_index key headers = Some i <->
  headers !! i = Some key
  /\ forall j, (i < j)%nat -> headers !! j <> Some key.
Proof.
  destruct (last_index_sound key headers) as [Hsome Hnone].
  split; [apply Hsome|].
  intros [Hi Hmax].
  destruct (last_index key headers) as [i'|].
  - destruct (Hsome i' eq_refl) as [Hi' Hafter].
    destruct (lt_eq_lt_dec i i') as [[Hlt|Heq]|Hgt].
    + exfalso. exact (Hmax i' Hlt Hi').
    + congruence.
    + exfalso. exact (Hafter i Hgt Hi).
  - exfalso. exact (Hnone eq_refl i Hi).
Qed.

Lemma fold_header_lookup (headers : list pystr) (k : nat)
    (m0 : gmap pystr nat) (key : pystr) :
  fold_left (fun m ih => <[ih.2 := ih.1]> m)
    (imap (fun i h => ((k + i)%nat, h)) headers) m0 !! key =
    match last_index key headers with
    | Some i => Some (k + i)%nat
    | None => m0 !! key
    end.
Proof.
  revert k m0. induction headers as [|h rest IH]; intros k m0; simpl;
    [reflexivity|].
  rewrite (imap_ext _ (fun i h0 => ((S k + i)%nat, h0)))
    by (intros; simpl; f_equal; lia).
  rewrite IH.
  destruct (last_index key rest) as [i|]; [f_equal; lia|].
  unfold str_eqb. case_bool_decide as Hh.
  - subst h. rewrite lookup_insert_eq. reflexivity.
  - rewrite lookup_insert_ne by exact Hh. reflexivity.
Qed.

Lemma make_header_map_last_index headers key :
  make_header_map headers !! key = last_index key headers.
Proof.
  unfold make_header_map.
  change (imap pair headers) with (imap (fun i h => ((0 + i)%nat, h)) headers).
  rewrite fold_header_lookup, lookup_empty.
  destruct (last_index key headers); reflexivity.
Qed.

(** X6. The header map has no entry for a name that is not in the header
    row, and maps a name to the position of the last column of that name.
    [get_value] reads the cell at that position, and returns the default
    when the name is not in the header or the row has no such cell. *)
Theorem header_map_last_wins headers key :
  (make_header_map headers !! key = None <-> key ∉ headers)
  /\ (forall i,
        make_header_map headers !! key = Some i <->
        headers !! i = Some key
        /\ forall j, (i < j)%nat -> headers !! j <> Some key)
  /\ (forall row default,
        get_value (make_header_map headers) row key default =
          match make_header_map headers !! key with
          | Some i =>
              match row !! i with
              | Some cell => clean_string (Some cell)
              | None => default
              end
          | None => default
          end).
Proof.
  destruct (last_index_sound key headers) as [Hsome Hnone].
  split; [|split].
  3:{ intros row default. rewrite get_value_cell. unfold column_cell.
      destruct (make_header_map headers !! key); reflexivity. }
  - rewrite make_header_map_last_index. split.
    + intros Hlast Hin. apply list_elem_of_lookup in Hin as [j Hj].
      exact (Hnone Hlast j Hj).
    + intros Hnot. destruct (last_index key headers) as [i|]; [|reflexivity].
      exfalso. apply Hnot. destruct (Hsome i eq_refl) as [Hi _].
      apply list_elem_of_lookup. eauto.
  - intros i. rewrite make_header_map_last_index. apply last_index_spec.
Qed.


Lemma float_of_ascii_raises s e :
  float_of_ascii s = Raise e -> e = ValueError.
Proof.
  unfold float_of_ascii.
  destruct (if contains (chr "_") s then _ else _) as [s1|];
    [|intros [= <-]; reflexivity].
  destruct (parse_decimal _); [discriminate|].
  destruct (parse_inf_or_nan _); [discriminate|].
  intros [= <-]. reflexivity.
Qed.

Lemma float_of_str_raises s e :
  float_of_str s = Raise e -> e = ValueError.
Proof. unfold float_of_str. apply float_of_ascii_raises. Qed.

Lemma float_of_str_none_token s :
  str_eqb s (py "None") || str_eqb s (py "") = true ->
  float_of_str s = Raise ValueError.
Proof.
  intros Htok. apply orb_true_iff in Htok as [Hs|Hs];
    apply str_eqb_eq in Hs; subst s; vm_compute; reflexivity.
Qed.

Lemma clean_number_str_raises s e :
  clean_number (VStr s) = Raise e ->
  e = OverflowError /\ exists neg, float_of_str s = Ok (FInf neg).
Proof.
  unfold clean_number. cbn [is_none_token float_of].
  destruct (str_eqb s (py "None") || str_eqb s (py "")); [discriminate|].
  destruct (float_of_str s) as [[|neg|neg m ex]|e0] eqn:Hfloat;
    cbn [mbind result_bind int_of_float try_except caught_by];
    try discriminate.
  - intros [= <-]. split; [reflexivity|]. eauto.
  - apply float_of_str_raises in Hfloat as ->. discriminate.
Qed.

(** X3. On text, [clean_number] raises exactly when [float] reads the text
    as an infinity, and then the exception is [OverflowError]. *)
Theorem clean_number_raises_iff s e :
  clean_number (VStr s) = Raise e <->
  e = OverflowError /\ exists neg, float_of_str s = Ok (FInf neg).
Proof.
  split; [apply clean_number_str_raises|].
  intros [-> [neg Hinf]]. unfold clean_number. cbn [is_none_token float_of].
  destruct (str_eqb s (py "None") || str_eqb s (py "")) eqn:Htok.
  { rewrite float_of_str_none_token in Hinf by exact Htok. discriminate Hinf. }
  rewrite Hinf. reflexivity.
Qed.

Lemma clean_number_raises n e :
  clean_number n = Raise e -> e = OverflowError.
Proof.
  unfold clean_number. destruct (is_none_token n); [discriminate|].
  destruct n as [|s|z]; cbn [float_of].
  - discriminate.
  - destruct (float_of_str s) as [[|neg|neg m ex]|e0] eqn:Hfloat;
      cbn [mbind result_bind int_of_float try_except caught_by];
      try discriminate.
    + intros [= <-]. reflexivity.
    + apply float_of_str_raises in Hfloat as ->. discriminate.
  - unfold float_of_int. destruct (round_binary64 _ _) as [[m ex]|];
      cbn [mbind result_bind int_of_float try_except caught_by];
      [discriminate|].
    intros [= <-]. reflexivity.
Qed.










Lemma build_contractor_name hm row cy row_index now c :
  build_contractor hm row cy row_index now = Ok c ->
  bi_name (c_basic_info c) = get_value hm row (py "name") (py "").
Proof. intros Hbuild. invert_build Hbuild. reflexivity. Qed.

Lemma process_row_lines clock headers all_rows st row_index st' :
  process_row clock headers all_rows st row_index = Ok st' ->
  exists line cs,
    rs_printed st' = rs_printed st ++ [line]
    /\ line_row line = Some row_index
    /\ rs_contractors st' = rs_contractors st ++ cs
    /\ omap line_name [line] = map (fun c => bi_name (c_basic_info c)) cs.
Proof.
  unfold process_row. destruct (_ || _).
  { intros [= <-]. exists (WarnOutOfRange row_index), [].
    rewrite app_nil_r. auto. }
  cbv zeta. intros Hstep.
  apply bind_Ok in Hstep as (no_name & _ & Hstep).
  destruct no_name.
  { injection Hstep as <-. exists (WarnEmpty row_index), [].
    rewrite app_nil_r. auto. }
  apply bind_Ok in Hstep as (c & Hbuild & Hstep).
  injection Hstep as <-. eexists _, [c]. cbn.
  rewrite (build_contractor_name _ _ _ _ _ _ Hbuild). auto.
Qed.

Lemma process_rows_lines clock headers all_rows specific_rows st st' :
  process_rows clock headers all_rows st specific_rows = Ok st' ->
  exists lines cs,
    rs_printed st' = rs_printed st ++ lines
    /\ map line_row lines = map Some specific_rows
    /\ rs_contractors st' = rs_contractors st ++ cs
    /\ omap line_name lines = map (fun c => bi_name (c_basic_info c)) cs.
Proof.
  revert st. induction specific_rows as [|row_index rest IH]; intros st;
    cbn [process_rows].
  - intros [= <-]. exists [], []. rewrite !app_nil_r. auto.
  - intros Hrows. apply bind_Ok in Hrows as (st1 & Hstep & Hrest).
    apply process_row_lines in Hstep as (line & cs1 & Hp1 & Hl1 & Hc1 & Hn1).
    apply IH in Hrest as (lines & cs2 & Hp2 & Hl2 & Hc2 & Hn2).
    exists (line :: lines), (cs1 ++ cs2).
    rewrite Hp2, Hp1, Hc2, Hc1, <- !app_assoc. cbn [map].
    rewrite Hl1, Hl2, map_app.
    change (line :: lines) with ([line] ++ lines).
    rewrite omap_app, Hn1, Hn2. auto.
Qed.

Lemma omap_length_le {A B : Type} (f : A -> option B) (l : list A) :
  (length (omap f l) <= length l)%nat.
Proof.
  induction l as [|a l IH]; [reflexivity|].
  change (omap f (a :: l))
    with (match f a with Some b => b :: omap f l | None => omap f l end).
  destruct (f a); simpl; lia.
Qed.

(** X10. A run that returns prints one line per requested row, in the order
    requested, then the two closing lines; the records are in the order of
    the progress lines and carry their names; [total_count] is the number of
    records, at most the number of requested rows; [processed_rows] is the
    request. *)
Theorem run_lines clock headers all_rows specific_rows doc out :
  convert_to_json clock headers all_rows specific_rows = Ok (doc, out) ->
  exists lines,
    out = lines ++
            [ProcessedTotal (total_count (doc_meta doc));
             SegmentStats (meta_segments (doc_meta doc))]
    /\ map line_row lines = map Some specific_rows
    /\ omap line_name lines =
         map (fun c => bi_name (c_basic_info c)) (hvac_contractors doc)
    /\ total_count (doc_meta doc) = length (hvac_contractors doc)
    /\ (total_count (doc_meta doc) <= length specific_rows)%nat
    /\ processed_rows (doc_meta doc) = specific_rows.
Proof.
  unfold convert_to_json. intros Hrun.
  apply bind_Ok in Hrun as (st & Hrows & Hdoc).
  apply process_rows_lines in Hrows as (lines & cs & Hp & Hl & Hc & Hn).
  cbn in Hp, Hc. injection Hdoc as <- <-. cbn.
  exists lines. rewrite Hp, Hc.
  split; [reflexivity|]. split; [exact Hl|]. split; [exact Hn|].
  split; [reflexivity|]. split; [|reflexivity].
  rewrite <- (length_map Some specific_rows), <- Hl, length_map.
  rewrite <- (length_map (fun c => bi_name (c_basic_info c)) cs), <- Hn.
  apply omap_length_le.
Qed.

Lemma count_where_le flag l : (count_where flag l <= length l)%nat.
Proof. unfold count_where. apply List.filter_length_le. Qed.

(** X11. None of the six segment counts exceeds [total_count]. *)
Theorem segment_counts_bounded clock headers all_rows specific_rows doc out :
  convert_to_json clock headers all_rows specific_rows = Ok (doc, out) ->
  let s := meta_segments (doc_meta doc) in
  let n := total_count (doc_meta doc) in
  (with_website s <= n /\ with_valid_email s <= n
   /\ with_mobile_phone s <= n /\ high_rated s <= n /\ established s <= n
   /\ verified s <= n)%nat.
Proof.
  unfold convert_to_json. intros Hrun.
  apply bind_Ok in Hrun as (st & _ & Hdoc).
  injection Hdoc as <- _. cbn. repeat split; apply count_where_le.
Qed.

(** X12. When the header row has no column called "name", every record of
    the output has an empty name. *)
Theorem no_name_column_blank_names
    clock headers all_rows specific_rows doc out :
  py "name" ∉ headers ->
  convert_to_json clock headers all_rows specific_rows = Ok (doc, out) ->
  Forall (fun c => bi_name (c_basic_info c) = py "") (hvac_contractors doc).
Proof.
  intros Hname Hrun. apply convert_to_json_built in Hrun.
  eapply Forall_impl; [exact Hrun|].
  intros c (row & row_index & now & _ & Hbuild).
  rewrite (build_contractor_name _ _ _ _ _ _ Hbuild), get_value_cell.
  unfold column_cell, header_map.
  destruct (last_index_sound (py "name") headers) as [_ Hnone].
  rewrite make_header_map_last_index.
  destruct (last_index (py "name") headers) as [i|] eqn:Hlast; [|reflexivity].
  exfalso. apply Hname.
  apply last_index_spec in Hlast as [Hi _].
  apply list_elem_of_lookup. eauto.
Qed.

(** X13. In every record of the output the eight segmentation flags are the
    ones recomputed from the other fields of the same record. *)
Theorem segmentation_from_fields
    clock headers all_rows specific_rows doc out :
  convert_to_json clock headers all_rows specific_rows = Ok (doc, out) ->
  Forall (fun c => c_segmentation c = flags_of c) (hvac_contractors doc).
Proof.
  intros Hrun. apply convert_to_json_built in Hrun.
  eapply Forall_impl; [exact Hrun|].
  intros c (row & row_index & now & _ & Hbuild).
  invert_build Hbuild. reflexivity.
Qed.

(** X14. In every record of the output, [established_business] holds
    exactly when [year_founded] is an integer other than 0 and more than
    five years before the current year, and [has_reviews] holds exactly when
    the review count is a positive integer. *)
Theorem established_and_reviews_flags
    clock headers all_rows specific_rows doc out :
  convert_to_json clock headers all_rows specific_rows = Ok (doc, out) ->
  Forall
    (fun c =>
       (established_business (c_segmentation c) = true <->
        exists y, bd_year_founded (c_business_details c) = Some y
                  /\ y <> 0 /\ y + 5 < dt_year (clock 0%nat))
       /\ (has_reviews (c_segmentation c) = true <->
           exists n, op_google_reviews_count (c_online_presence c) = Some n
                     /\ 0 < n))
    (hvac_contractors doc).
Proof.
  intros Hrun. apply convert_to_json_built in Hrun.
  eapply Forall_impl; [exact Hrun|].
  intros c (row & row_index & now & _ & Hbuild).
  invert_build Hbuild.
  cbn [established_business has_reviews op_google_reviews_count].
  unfold current_year. split.
  - match goal with
    | |- context [match ?yf with Some _ => _ | None => _ end] =>
        destruct yf as [y|]
    end.
    + destruct (Z.eqb_spec y 0) as [->|Hy]; cbn [negb present_and_gt].
      * split; [discriminate|]. intros (y & [= <-] & Hy & _). contradiction.
      * rewrite andb_true_iff, negb_true_iff, Z.eqb_neq, Z.ltb_lt. split.
        -- intros [_ Hgt]. exists y. split; [reflexivity|]. split; [exact Hy|lia].
        -- intros (y' & [= <-] & _ & Hlt). lia.
    + cbn. split; [discriminate|]. intros (y & Hy & _). discriminate Hy.
  - match goal with
    | |- context [present_and_gt ?rc 0] => destruct rc as [n|]
    end; cbn [present_and_gt].
    + rewrite andb_true_iff, negb_true_iff, Z.eqb_neq, Z.ltb_lt. split.
      * intros [_ Hn]. eauto.
      * intros (n' & [= <-] & Hn). lia.
    + split; [discriminate|]. intros (n & Hn & _). discriminate Hn.
Qed.



(** X16. The additional emails of a record are the non-empty cleaned values
    of email_2 and email_3, in this order; equal addresses are both kept. *)
Theorem additional_emails_kept hm row cy row_index now c :
  build_contractor hm row cy row_index now = Ok c ->
  map em_address (ci_additional_emails (c_contact_info c)) =
    List.filter truthy
      [get_value hm row (py "email_2") (py "");
       get_value hm row (py "email_3") (py "")].
Proof.
  intros Hbuild. invert_build Hbuild.
  cbn [ci_additional_emails fold_left List.filter]. unfold add_email.
  destruct (truthy (get_value hm row (py "email_2") (py "")));
    destruct (truthy (get_value hm row (py "email_3") (py "")));
    reflexivity.
Qed.

Lemma truthy_nonempty {A : Type} (l : list A) : truthy l = true <-> l <> [].
Proof. destruct l; simpl; split; congruence. Qed.

Lemma add_phone_cases hm row phones seen phone_field :
  let v := get_value hm row phone_field (py "") in
  (add_phone hm row (phones, seen) phone_field = (phones, seen)
   /\ (digits_only v <> [] -> digits_only v ∈ seen))
  \/ (exists entry,
        add_phone hm row (phones, seen) phone_field =
          (phones ++ [entry], {[digits_only v]} ∪ seen)
        /\ pe_number entry = v /\ digits_only v <> []
        /\ digits_only v ∉ seen).
Proof.
  cbv zeta. unfold add_phone.
  destruct (get_value hm row phone_field (py "")) as [|ch v] eqn:Hv.
  { left. split; [reflexivity|]. intros Hd. contradiction Hd. reflexivity. }
  cbn [truthy].
  destruct (truthy (digits_only (ch :: v))) eqn:Hdigits; cbn [andb].
  - case_bool_decide as Hin; cbn [negb].
    + left. auto.
    + right. eexists. split; [reflexivity|]. cbn [pe_number].
      split; [reflexivity|]. split; [|exact Hin].
      apply truthy_nonempty. exact Hdigits.
  - left. split; [reflexivity|]. intros Hd.
    apply truthy_nonempty in Hd. congruence.
Qed.

Lemma fold_add_phone_spec hm row fields :
  forall phones seen,
  exists new,
    (fold_left (add_phone hm row) fields (phones, seen)).1 = phones ++ new
    /\ sublist (map pe_number new)
         (map (fun f => get_value hm row f (py "")) fields)
    /\ Forall (fun p => digits_only (pe_number p) <> []) new
    /\ (forall k,
          k ∈ (fold_left (add_phone hm row) fields (phones, seen)).2 <->
          k ∈ seen \/ k ∈ map phone_key new)
    /\ (forall f, f ∈ fields ->
          digits_only (get_value hm row f (py "")) <> [] ->
          digits_only (get_value hm row f (py ""))
            ∈ (fold_left (add_phone hm row) fields (phones, seen)).2).
Proof.
  induction fields as [|f0 rest IH]; intros phones seen; cbn [fold_left].
  - exists []. rewrite app_nil_r. cbn.
    split; [reflexivity|]. split; [constructor|]. split; [constructor|].
    split.
    + intros k. split; [auto|]. intros [Hk|Hk]; [exact Hk | inversion Hk].
    + intros f Hf. inversion Hf.
  - destruct (add_phone_cases hm row phones seen f0)
      as [[Hsame Hseen]|(entry & Hadd & Hnum & Hdig & Hfresh)].
    + rewrite Hsame.
      destruct (IH phones seen) as (new & Hps & Hsub & Hne & Hset & Hall).
      exists new. split; [exact Hps|].
      split; [cbn [map]; apply sublist_cons; exact Hsub|].
      split; [exact Hne|]. split; [exact Hset|].
      intros f Hf Hd. apply elem_of_cons in Hf as [->|Hf]; [|auto].
      apply Hset. left. auto.
    + rewrite Hadd.
      destruct (IH (phones ++ [entry])
                  ({[digits_only (get_value hm row f0 (py ""))]} ∪ seen))
        as (new & Hps & Hsub & Hne & Hset & Hall).
      exists (entry :: new).
      split; [rewrite Hps, <- app_assoc; reflexivity|].
      split; [cbn [map]; rewrite Hnum; apply sublist_skip; exact Hsub|].
      split; [constructor; [rewrite Hnum; exact Hdig | exact Hne]|].
      split.
      * intros k. rewrite Hset, elem_of_union, elem_of_singleton.
        cbn [map]. rewrite elem_of_cons. unfold phone_key at 2.
        rewrite Hnum. tauto.
      * intros f Hf Hd. apply elem_of_cons in Hf as [->|Hf]; [|auto].
        apply Hset. left. apply elem_of_union. left.
        apply elem_of_singleton. reflexivity.
Qed.

(** X17. The numbers of the additional phones of a record follow the
    order of the columns phone_1, phone_2, phone_3; each has at least one
    digit; and every value of these columns with a digit has its digits in
    the list or equal to the digits of the non-empty primary phone. *)
Theorem additional_phones_complete hm row cy row_index now c :
  build_contractor hm row cy row_index now = Ok c ->
  let primary := ph_primary (ci_phone (c_contact_info c)) in
  let phones := ph_additional_phones (ci_phone (c_contact_info c)) in
  sublist (map pe_number phones)
    (map (fun f => get_value hm row f (py "")) phone_fields)
  /\ Forall (fun p => digits_only (pe_number p) <> []) phones
  /\ (forall f, f ∈ phone_fields ->
        let v := get_value hm row f (py "") in
        digits_only v <> [] ->
        digits_only v ∈ map phone_key phones
        \/ (primary <> [] /\ digits_only v = digits_only primary)).
Proof.
  intros Hbuild. invert_build Hbuild. cbv zeta.
  set (phone := get_value hm row (py "phone") (py "")).
  unfold dedup_phones.
  destruct (fold_add_phone_spec hm row phone_fields [] (seed_processed phone))
    as (new & Hps & Hsub & Hne & Hset & Hall).
  rewrite Hps. cbn [app].
  split; [exact Hsub|]. split; [exact Hne|].
  intros f Hf Hd. apply (Hall f Hf) in Hd. apply Hset in Hd as [Hseed|Hkey];
    [|auto].
  right. unfold seed_processed in Hseed.
  destruct phone as [|ch phone']; cbn [truthy] in Hseed.
  - apply not_elem_of_empty in Hseed. contradiction.
  - apply elem_of_singleton in Hseed. split; [discriminate | exact Hseed].
Qed.

Lemma split_no_sep sep s :
  Forall (fun w => Forall (fun c => c <> sep) w) (split sep s).
Proof.
  induction s as [|c s IH]; cbn [split]; [repeat constructor|].
  destruct (N.eqb_spec c sep) as [->|Hc].
  - constructor; [constructor | exact IH].
  - destruct (split sep s) as [|w ws]; [repeat constructor; exact Hc|].
    apply Forall_cons in IH as [Hw Hws].
    constructor; [constructor; assumption | exact Hws].
Qed.

(** X18. Every service tag of a record is non-empty, neither begins nor
    ends with whitespace and holds no comma; there are at most as many tags
    as comma-separated parts of the subtypes cell. *)
Theorem services_clean hm row cy row_index now c :
  build_contractor hm row cy row_index now = Ok c ->
  let services := bd_services (c_business_details c) in
  Forall
    (fun s =>
       s <> py ""
       /\ (forall ch, head s = Some ch -> isspace ch = false)
       /\ (forall ch, last s = Some ch -> isspace ch = false)
       /\ Forall (fun ch => ch <> chr ",") s)
    services
  /\ (length services <=
      length (split (chr ",") (get_value hm row (py "subtypes") (py ""))))%nat.
Proof.
  intros Hbuild. invert_build Hbuild. cbn [bd_services].
  destruct (truthy (get_value hm row (py "subtypes") (py ""))).
  2:{ split; [constructor | cbn; lia]. }
  split.
  - apply Forall_map, Forall_forall. intros s Hs.
    apply list_elem_of_In, List.filter_In in Hs as [Hin Hne].
    split; [apply truthy_nonempty; exact Hne|].
    split; [apply strip_with_head|]. split; [apply strip_with_last|].
    pose proof (split_no_sep (chr ",")
                  (get_value hm row (py "subtypes") (py ""))) as Hsep.
    rewrite Forall_forall in Hsep.
    apply list_elem_of_In in Hin. specialize (Hsep s Hin).
    unfold strip.
    destruct (strip_with_split isspace s) as (pre & post & Hs & _ & _).
    rewrite Hs in Hsep. apply Forall_app in Hsep as [_ Hsep].
    apply Forall_app in Hsep as [Hsep _]. exact Hsep.
  - rewrite length_map. apply List.filter_length_le.
Qed.

(** Decimal digits of a number, as text. *)
Lemma uint_text_digits d :
  Forall (fun c => is_digit c = true) (py (NilEmpty.string_of_uint d)).
Proof. induction d; simpl; constructor; auto. Qed.

Lemma uint_text_value_acc d acc :
  fold_left (fun a c => (a * 10 + (c - 48))%N)
    (py (NilEmpty.string_of_uint d)) (N.pos acc) =
    N.pos (Pos.of_uint_acc d acc).
Proof.
  revert acc. induction d as [|d IH|d IH|d IH|d IH|d IH|d IH|d IH|d IH|d IH|d IH];
    intros acc; [reflexivity|..];
    cbn [NilEmpty.string_of_uint py list_ascii_of_string map fold_left
         Pos.of_uint_acc];
    rewrite <- IH; f_equal; cbn [N_of_ascii N_of_digits]; lia.
Qed.

Lemma uint_text_value d :
  digits_value (py (NilEmpty.string_of_uint d)) = Pos.of_uint d.
Proof.
  unfold digits_value.
  induction d as [|d IH|d IH|d IH|d IH|d IH|d IH|d IH|d IH|d IH|d IH];
    [reflexivity|exact IH|..];
    cbn [NilEmpty.string_of_uint py list_ascii_of_string map fold_left
         Pos.of_uint];
    rewrite <- uint_text_value_acc; reflexivity.
Qed.

Lemma span_digits_all s :
  Forall (fun c => is_digit c = true) s -> span_digits s = (s, []).
Proof.
  induction 1 as [|c s Hc _ IH]; cbn [span_digits]; [reflexivity|].
  rewrite Hc, IH. reflexivity.
Qed.

Lemma strip_with_none p s :
  Forall (fun c => p c = false) s -> strip_with p s = s.
Proof.
  intros Hs. unfold strip_with.
  rewrite (lstrip_with_id p s).
  - apply rstrip_with_id. intros c Hc. apply last_Some in Hc as [l ->].
    apply Forall_app in Hs as [_ Hs]. apply Forall_cons in Hs as [Hc _].
    exact Hc.
  - intros c Hc. destruct s as [|c0 s]; [discriminate|].
    injection Hc as ->. apply Forall_cons in Hs as [Hc _]. exact Hc.
Qed.

Lemma is_digit_range c : is_digit c = true -> (48 <= c <= 57)%N.
Proof. unfold is_digit. rewrite andb_true_iff, !N.leb_le. tauto. Qed.

(** An integer below [2^53] is a binary64 value, and truncation gives it
    back. *)
Lemma round_binary64_small n :
  (0 < n < 2 ^ 53)%N ->
  exists m e,
    round_binary64 n 1 = Some (m, e)
    /\ forall neg,
         int_of_float (FFinite neg m e) =
           Ok (if neg then - Z.of_N n else Z.of_N n).
Proof.
  intros [Hpos Hlt]. unfold round_binary64.
  rewrite (proj2 (N.eqb_neq n 0)) by lia.
  change (N.log2 1) with 0%N. rewrite Z.sub_0_r.
  pose proof (N.log2_spec n Hpos) as [Hlow _].
  pose proof (proj1 (N.log2_lt_pow2 n 53 Hpos) Hlt) as Hlog.
  set (a := N.log2 n) in *.
  cbv zeta.
  replace (0 <=? Z.of_N a) with true by (symmetry; apply Z.leb_le; lia).
  rewrite N2Z.id, N.shiftl_1_l.
  rewrite (proj2 (N.leb_le _ _) Hlow).
  replace (Z.max (Z.of_N a - 52) (-1074)) with (Z.of_N a - 52) by lia.
  destruct (N.eq_dec a 52%N) as [Ha|Ha].
  - rewrite Ha. change (0 <=? Z.of_N 52%N - 52) with true.
    change (Z.to_N (Z.of_N 52%N - 52)) with 0%N.
    rewrite N.shiftl_0_r, N.div_1_r, N.mod_1_r.
    change ((1 <? 2 * 0) || (2 * 0 =? 1) && N.odd n)%N with false.
    cbv iota.
    rewrite (proj2 (N.eqb_neq n (2 ^ 53))) by lia.
    rewrite (proj2 (N.eqb_neq n 0)) by lia.
    change (971 <? Z.of_N 52%N - 52) with false.
    eexists _, _. split; [reflexivity|].
    intros neg. cbn [int_of_float].
    change (0 <=? Z.of_N 52%N - 52) with true.
    change (Z.to_N (Z.of_N 52%N - 52)) with 0%N.
    rewrite N.shiftl_0_r. reflexivity.
  - replace (0 <=? Z.of_N a - 52) with false
      by (symmetry; apply Z.leb_gt; lia).
    replace (Z.to_N (- (Z.of_N a - 52))) with (52 - a)%N by lia.
    rewrite N.div_1_r, N.mod_1_r.
    change ((1 <? 2 * 0) || (2 * 0 =? 1) && N.odd (N.shiftl n (52 - a)))%N
      with false.
    cbv iota.
    assert (Hshift : (0 < N.shiftl n (52 - a) < 2 ^ 53)%N).
    { rewrite N.shiftl_mul_pow2. split; [apply N.mul_pos_pos; [lia|]|].
      - apply N.neq_0_lt_0, N.pow_nonzero. lia.
      - pose proof (N.log2_spec n Hpos) as [_ Hup]. fold a in Hup.
        replace 53%N with (N.succ a + (52 - a))%N by lia.
        rewrite N.pow_add_r. apply N.mul_lt_mono_pos_r; [|exact Hup].
        apply N.neq_0_lt_0, N.pow_nonzero. lia. }
    rewrite (proj2 (N.eqb_neq _ (2 ^ 53))) by lia.
    rewrite (proj2 (N.eqb_neq _ 0)) by lia.
    replace (971 <? Z.of_N a - 52) with false
      by (symmetry; apply Z.ltb_ge; lia).
    eexists _, _. split; [reflexivity|].
    intros neg. cbn [int_of_float].
    replace (0 <=? Z.of_N a - 52) with false
      by (symmetry; apply Z.leb_gt; lia).
    replace (Z.to_N (- (Z.of_N a - 52))) with (52 - a)%N by lia.
    rewrite N.shiftr_shiftl_l by lia. rewrite N.sub_diag, N.shiftl_0_r.
    reflexivity.
Qed.


Lemma parse_decimal_digits (neg : bool) s :
  Forall (fun c => is_digit c = true) s -> s <> [] ->
  parse_decimal ((if neg then [chr "-"] else []) ++ s) =
    Some (float_of_ratio neg (digits_value s) 1).
Proof.
  intros Hs Hne. unfold parse_decimal.
  assert (Hsign : take_sign ((if neg then [chr "-"] else []) ++ s) = (neg, s)).
  { destruct neg; [reflexivity|]. cbn [app].
    destruct s as [|c s']; [contradiction|].
    apply Forall_cons in Hs as [Hc _]. apply is_digit_range in Hc.
    unfold take_sign.
    rewrite (proj2 (N.eqb_neq c (chr "-"))) by (cbn; lia).
    rewrite (proj2 (N.eqb_neq c (chr "+"))) by (cbn; lia).
    reflexivity. }
  rewrite Hsign, (span_digits_all s Hs). cbv iota beta.
  rewrite app_nil_r.
  destruct s as [|c s']; [contradiction|].
  cbn [truthy negb length]. unfold scale10.
  change (0 <=? - Z.of_nat 0) with true. cbv iota.
  change (10 ^ Z.to_N (- Z.of_nat 0))%N with 1%N.
  rewrite N.mul_1_r. reflexivity.
Qed.

Lemma float_of_str_digits (neg : bool) s :
  Forall (fun c => is_digit c = true) s -> s <> [] ->
  float_of_str ((if neg then [chr "-"] else []) ++ s) =
    Ok (float_of_ratio neg (digits_value s) 1).
Proof.
  intros Hs Hne.
  assert (Hall : Forall (fun c => (48 <= c <= 57)%N \/ c = chr "-")
                   ((if neg then [chr "-"] else []) ++ s)).
  { apply Forall_app. split.
    - destruct neg; [|constructor].
      constructor; [right; reflexivity | constructor].
    - eapply Forall_impl; [exact Hs|]. intros c Hc. left.
      apply is_digit_range, Hc. }
  set (text := (if neg then [chr "-"] else []) ++ s) in *.
  unfold float_of_str.
  replace (forallb (fun c => (c <? 128)%N) text) with true.
  2:{ symmetry. apply forallb_forall. intros c Hc.
      apply list_elem_of_In in Hc. rewrite Forall_forall in Hall.
      apply N.ltb_lt. destruct (Hall c Hc) as [?| ->]; [lia | cbn; lia]. }
  unfold float_of_ascii.
  replace (contains (chr "_") text) with false.
  2:{ symmetry. unfold contains. apply not_true_is_false. intros Hex.
      apply existsb_exists in Hex as (c & Hc & Heq).
      apply list_elem_of_In in Hc. rewrite Forall_forall in Hall.
      apply N.eqb_eq in Heq. subst c.
      destruct (Hall _ Hc) as [Hr|Hr]; [cbn in Hr; lia | discriminate Hr]. }
  rewrite strip_with_none.
  2:{ eapply Forall_impl; [exact Hall|]. intros c [Hc| ->]; [|reflexivity].
      unfold c_isspace. apply orb_false_iff. split.
      - apply andb_false_iff. right. apply N.leb_gt. lia.
      - apply N.eqb_neq. lia. }
  unfold text. rewrite (parse_decimal_digits neg s Hs Hne). reflexivity.
Qed.

Lemma clean_number_small_integer z :
  Z.abs z < 2 ^ 53 ->
  clean_number (VStr (str_of_Z z)) = Ok (Some z).
Proof.
  intros Hz. destruct z as [|p|p]; [vm_compute; reflexivity|..].
  - pose proof (uint_text_value (Pos.to_uint p)) as Hval.
    rewrite DecimalPos.Unsigned.of_to in Hval.
    pose proof (uint_text_digits (Pos.to_uint p)) as Hdig.
    cbn [str_of_Z]. set (s := py (NilEmpty.string_of_uint (Pos.to_uint p))) in *.
    assert (Hne : s <> []) by (intros Hs; rewrite Hs in Hval; discriminate).
    pose proof (float_of_str_digits false s Hdig Hne) as Hfloat.
    cbn [app] in Hfloat. rewrite Hval in Hfloat.
    destruct (round_binary64_small (N.pos p)) as (m & e & Hround & Hint);
      [split; [reflexivity|]; lia|].
    unfold float_of_ratio in Hfloat. rewrite Hround in Hfloat.
    unfold clean_number. cbn [is_none_token float_of].
    replace (str_eqb s (py "None") || str_eqb s (py "")) with false.
    2:{ symmetry. apply orb_false_iff. unfold str_eqb.
        split; apply bool_decide_eq_false; [|exact Hne].
        intros Hs. rewrite Hs in Hdig. apply Forall_cons in Hdig as [Hd _].
        discriminate Hd. }
    rewrite Hfloat. cbn [mbind result_bind]. rewrite (Hint false).
    reflexivity.
  - pose proof (uint_text_value (Pos.to_uint p)) as Hval.
    rewrite DecimalPos.Unsigned.of_to in Hval.
    pose proof (uint_text_digits (Pos.to_uint p)) as Hdig.
    cbn [str_of_Z]. set (s := py (NilEmpty.string_of_uint (Pos.to_uint p))) in *.
    assert (Hne : s <> []) by (intros Hs; rewrite Hs in Hval; discriminate).
    pose proof (float_of_str_digits true s Hdig Hne) as Hfloat.
    cbn [app] in Hfloat. rewrite Hval in Hfloat.
    destruct (round_binary64_small (N.pos p)) as (m & e & Hround & Hint);
      [split; [reflexivity|]; lia|].
    unfold float_of_ratio in Hfloat. rewrite Hround in Hfloat.
    unfold clean_number. cbn [is_none_token float_of].
    replace (str_eqb (chr "-" :: s) (py "None") || str_eqb (chr "-" :: s) (py ""))
      with false.
    2:{ symmetry. apply orb_false_iff. unfold str_eqb.
        split; apply bool_decide_eq_false; discriminate. }
    rewrite Hfloat. cbn [mbind result_bind]. rewrite (Hint true).
    reflexivity.
Qed.


(** X4. [clean_number] gives back every integer below [2^53] in absolute
    value from its decimal text; above that the value may change, as
    [2^53 + 1] is read as [2^53]. *)
Theorem clean_number_integer_text :
  (forall z, Z.abs z < 2 ^ 53 ->
     clean_number (VStr (str_of_Z z)) = Ok (Some z))
  /\ clean_number (VStr (str_of_Z (2 ^ 53 + 1))) = Ok (Some (2 ^ 53)).
Proof.
  split; [exact clean_number_small_integer|]. vm_compute. reflexivity.
Qed.

Lemma process_row_skipped clock headers all_rows st row_index :
  skipped (header_map headers) all_rows row_index = true ->
  exists st',
    process_row clock headers all_rows st row_index = Ok st'
    /\ same_records st st'.
Proof.
  unfold skipped, process_row. intros Hskip.
  destruct ((row_index - 1 <? 0)
            || (Z.of_nat (length all_rows) <=? row_index - 1)) eqn:Hrange.
  { eexists. split; [reflexivity|]. split; reflexivity. }
  cbn [orb] in Hskip. cbv zeta.
  destruct (nth (Z.to_nat (row_index - 1)) all_rows []) as [|c0 row] eqn:Hrow.
  { eexists. split; [reflexivity|]. split; reflexivity. }
  cbn [truthy negb]. unfold index_row.
  destruct ((c0 :: row) !! default 0%nat (header_map headers !! py "name"))
    as [cell|]; [|discriminate Hskip].
  cbn [mbind result_bind]. rewrite Hskip.
  eexists. split; [reflexivity|]. split; reflexivity.
Qed.

Lemma process_row_same_records clock headers all_rows st1 st2 row_index :
  same_records st1 st2 ->
  same_outcome same_records
    (process_row clock headers all_rows st1 row_index)
    (process_row clock headers all_rows st2 row_index).
Proof.
  intros [Hcs Hreads]. unfold process_row.
  destruct (_ || _).
  { cbn. split; assumption. }
  cbv zeta.
  match goal with
  | |- context [@mbind result _ _ _ _ ?r] =>
      destruct r as [no_name|?]; cbn [mbind result_bind]; [|reflexivity]
  end.
  destruct no_name.
  { cbn. split; assumption. }
  rewrite Hreads.
  destruct (build_contractor _ _ _ _ _) as [c|e];
    cbn [mbind result_bind same_outcome]; [|reflexivity].
  split; cbn [rs_contractors rs_clock_reads]; [rewrite Hcs|]; reflexivity.
Qed.

Lemma process_rows_skip clock headers all_rows specific_rows :
  forall st1 st2, same_records st1 st2 ->
  same_outcome same_records
    (process_rows clock headers all_rows st1 specific_rows)
    (process_rows clock headers all_rows st2
       (List.filter
          (fun i => negb (skipped (header_map headers) all_rows i))
          specific_rows)).
Proof.
  induction specific_rows as [|row_index rest IH]; intros st1 st2 Hst;
    cbn [process_rows List.filter]; [exact Hst|].
  destruct (skipped (header_map headers) all_rows row_index) eqn:Hskip;
    cbn [negb].
  - destruct (process_row_skipped clock headers all_rows st1 row_index Hskip)
      as (st' & -> & [Hcs Hreads]).
    cbn [mbind result_bind]. apply IH.
    destruct Hst as [Hcs2 Hreads2]. split; congruence.
  - cbn [process_rows].
    pose proof (process_row_same_records clock headers all_rows st1 st2
                  row_index Hst) as Hstep.
    destruct (process_row clock headers all_rows st1 row_index) as [s1|e1],
             (process_row clock headers all_rows st2 row_index) as [s2|e2];
      cbn [same_outcome mbind result_bind] in *; try contradiction;
      [apply IH, Hstep | exact Hstep].
Qed.

(** X19. Requested rows that only produce a warning leave no trace in the
    document: the run without them ends alike, with the same records, the
    same [total_count], the same [generated_at] and the same segment
    counts. *)
Theorem skipped_rows_leave_no_record clock headers all_rows specific_rows :
  same_outcome
    (fun r1 r2 =>
       hvac_contractors r1.1 = hvac_contractors r2.1
       /\ total_count (doc_meta r1.1) = total_count (doc_meta r2.1)
       /\ generated_at (doc_meta r1.1) = generated_at (doc_meta r2.1)
       /\ meta_segments (doc_meta r1.1) = meta_segments (doc_meta r2.1))
    (convert_to_json clock headers all_rows specific_rows)
    (convert_to_json clock headers all_rows
       (List.filter
          (fun i => negb (skipped (header_map headers) all_rows i))
          specific_rows)).
Proof.
  unfold convert_to_json.
  pose proof (process_rows_skip clock headers all_rows specific_rows
                {| rs_contractors := []; rs_printed := [];
                   rs_clock_reads := 1 |}
                {| rs_contractors := []; rs_printed := [];
                   rs_clock_reads := 1 |}) as Hrows.
  destruct (process_rows clock headers all_rows _ specific_rows) as [s1|e1],
           (process_rows clock headers all_rows _ (List.filter _ _))
             as [s2|e2];
    cbn [same_outcome mbind result_bind] in *;
    try (apply Hrows; split; reflexivity).
  destruct Hrows as [Hcs Hreads]; [split; reflexivity|].
  cbn [fst hvac_contractors doc_meta total_count generated_at meta_segments].
  rewrite Hcs, Hreads. auto.
Qed.

End Transform.

(** ** The properties on the sample table *)

#[local] Existing Instance ascii_interpreter.

Lemma segment_counts_witness :
  exists doc out,
    convert_to_json (interp := ascii_interpreter) (sample_clock 2025)
      sample_headers sample_rows [1; 2; 3] = Ok (doc, out)
    /\ with_website (meta_segments (doc_meta doc)) =
         number_with (fun c => has_website (c_segmentation c))
           (hvac_contractors doc)
    /\ with_website (meta_segments (doc_meta doc)) = 1%nat.
Proof.
  destruct (convert_to_json (interp := ascii_interpreter) (sample_clock 2025)
              sample_headers sample_rows [1; 2; 3])
    as [[doc out]|e] eqn:Hrun.
  - exists doc, out. split; [reflexivity|].
    destruct (segment_counts_match _ _ _ _ _ _ Hrun) as [(Hw & _) _].
    split; [exact Hw|].
    vm_compute in Hrun. injection Hrun as <- _. reflexivity.
  - vm_compute in Hrun. discriminate Hrun.
Defined.

Lemma has_website_witness :
  exists doc out,
    convert_to_json (interp := ascii_interpreter) (sample_clock 2025)
      sample_headers sample_rows [1; 2; 3] = Ok (doc, out)
    /\ Forall
         (fun c =>
            wd_has_website (wp_website_details (c_web_presence c)) =
              has_website (c_segmentation c))
         (hvac_contractors doc)
    /\ length (hvac_contractors doc) = 2%nat.
Proof.
  destruct (convert_to_json (interp := ascii_interpreter) (sample_clock 2025)
              sample_headers sample_rows [1; 2; 3])
    as [[doc out]|e] eqn:Hrun.
  - exists doc, out. split; [reflexivity|]. split.
    + eapply Forall_impl; [exact (has_website_consistent _ _ _ _ _ _ Hrun)|].
      intros c [Hc _]. exact Hc.
    + vm_compute in Hrun. injection Hrun as <- _. reflexivity.
  - vm_compute in Hrun. discriminate Hrun.
Defined.

Lemma years_in_business_witness :
  exists doc out,
    convert_to_json (interp := ascii_interpreter) (sample_clock 2025)
      sample_headers sample_rows [1; 2; 3] = Ok (doc, out)
    /\ Forall
         (fun c =>
            bd_years_in_business (c_business_details c) =
              match bd_year_founded (c_business_details c) with
              | Some y => if y =? 0 then None else Some (2025 - y)
              | None => None
              end)
         (hvac_contractors doc)
    /\ map (fun c => bd_years_in_business (c_business_details c))
         (hvac_contractors doc) = [Some 25; None].
Proof.
  destruct (convert_to_json (interp := ascii_interpreter) (sample_clock 2025)
              sample_headers sample_rows [1; 2; 3])
    as [[doc out]|e] eqn:Hrun.
  - exists doc, out. split; [reflexivity|]. split.
    + exact (years_in_business_nonzero _ _ _ _ _ _ Hrun).
    + vm_compute in Hrun. injection Hrun as <- _. reflexivity.
  - vm_compute in Hrun. discriminate Hrun.
Defined.

Lemma fallback_witness :
  exists c,
    build_contractor (interp := ascii_interpreter)
      (make_header_map [py "name"; py "us_state"]) [py "Acme"; py "TX"]
      2025 1 (sample_clock 2025 1) = Ok c
    /\ loc_state (bi_location (c_basic_info c)) = py "TX".
Proof.
  destruct (build_contractor (interp := ascii_interpreter)
              (make_header_map [py "name"; py "us_state"])
              [py "Acme"; py "TX"] 2025 1 (sample_clock 2025 1))
    as [c|e] eqn:Hbuild.
  - exists c. split; [reflexivity|].
    destruct (fallback_on_unresolved_column _ _ _ _ _ _ Hbuild)
      as [[Hstate _] _].
    rewrite Hstate by (vm_compute; reflexivity). vm_compute. reflexivity.
  - vm_compute in Hbuild. discriminate Hbuild.
Defined.

Lemma additional_phones_witness :
  exists doc out,
    convert_to_json (interp := ascii_interpreter) (sample_clock 2025)
      sample_headers sample_rows [1; 2; 3] = Ok (doc, out)
    /\ Forall
         (fun c =>
            let phone := ci_phone (c_contact_info c) in
            NoDup (map phone_key (ph_additional_phones phone))
            /\ (truthy (ph_primary phone) = true ->
                digits_only (ph_primary phone)
                  ∉ map phone_key (ph_additional_phones phone)))
         (hvac_contractors doc)
    /\ map (fun c => length (ph_additional_phones (ci_phone (c_contact_info c))))
         (hvac_contractors doc) = [0%nat; 1%nat].
Proof.
  destruct (convert_to_json (interp := ascii_interpreter) (sample_clock 2025)
              sample_headers sample_rows [1; 2; 3])
    as [[doc out]|e] eqn:Hrun.
  - exists doc, out. split; [reflexivity|]. split.
    + exact (proj1 (additional_phones_distinct
                      (interp := ascii_interpreter) (fun c _ => eq_refl))
               _ _ _ _ _ _ Hrun).
    + vm_compute in Hrun. injection Hrun as <- _. reflexivity.
  - vm_compute in Hrun. discriminate Hrun.
Defined.

Lemma parse_hours_witness :
  parse_hours (interp := ascii_interpreter) (py "mon:9-5|tue:9-5") =
    ODict [(py "mon", OStr (py "9-5")); (py "tue", OStr (py "9-5"))]
  /\ parse_hours (interp := ascii_interpreter) (py "{'mon': '9-5'}") =
       ODict [(py "mon", OStr (py "9-5"))].
Proof.
  destruct (parse_hours_policy (interp := ascii_interpreter)
              (fun s _ => eq_refl) (fun s o H => H))
    as (_ & _ & _ & _ & Hpipe & Hjson & _).
  split; [exact Hpipe | exact Hjson].
Defined.

Lemma rerun_witness :
  same_outcome
    (fun r1 r2 => scrub_document r1.1 = scrub_document r2.1 /\ r1.2 = r2.2)
    (convert_to_json (interp := ascii_interpreter) (sample_clock 2025)
       sample_headers sample_rows [1; 2; 3])
    (convert_to_json (interp := ascii_interpreter)
       (fun n => sample_clock 2025 (n + 3600)) sample_headers sample_rows
       [1; 2; 3]).
Proof. apply rerun_same_year. reflexivity. Defined.

Lemma slug_witness :
  make_slug (interp := ascii_interpreter) (py "Bob's A/C & Heating!!") =
    py "bob-s-a-c-heating".
Proof.
  exact (slug_example (interp := ascii_interpreter) (fun s _ => eq_refl)).
Defined.

Lemma out_of_range_witness :
  process_rows (interp := ascii_interpreter) (sample_clock 2025)
    sample_headers sample_rows
    {| rs_contractors := []; rs_printed := []; rs_clock_reads := 1 |}
    [3; 1] =
  process_rows (interp := ascii_interpreter) (sample_clock 2025)
    sample_headers sample_rows
    {| rs_contractors := []; rs_printed := [WarnOutOfRange 3];
       rs_clock_reads := 1 |}
    [1].
Proof.
  apply (out_of_range_row_skipped (interp := ascii_interpreter)
           (sample_clock 2025) sample_headers sample_rows
           {| rs_contractors := []; rs_printed := []; rs_clock_reads := 1 |}
           3 [1]).
  right. vm_compute. reflexivity.
Defined.

Lemma clean_number_integer_witness :
  clean_number (VStr (py "1987")) = Ok (Some 1987).
Proof.
  apply (proj1 clean_number_integer_text 1987). reflexivity.
Defined.



Lemma run_lines_witness :
  exists doc out lines,
    convert_to_json (sample_clock 2025) sample_headers sample_rows [2; 1; 7] =
      Ok (doc, out)
    /\ out = lines ++
               [ProcessedTotal (total_count (doc_meta doc));
                SegmentStats (meta_segments (doc_meta doc))]
    /\ map line_row lines = [Some 2; Some 1; Some 7].
Proof.
  destruct (convert_to_json (sample_clock 2025) sample_headers sample_rows
              [2; 1; 7]) as [[doc out]|e] eqn:Hrun.
  - destruct (run_lines _ _ _ _ _ _ Hrun) as (lines & Hout & Hrows & _).
    exists doc, out, lines. auto.
  - vm_compute in Hrun. discriminate Hrun.
Defined.

Lemma segment_counts_bounded_witness :
  exists doc out,
    convert_to_json (sample_clock 2025) sample_headers sample_rows [2; 1; 7] =
      Ok (doc, out)
    /\ (with_website (meta_segments (doc_meta doc))
        <= total_count (doc_meta doc))%nat.
Proof.
  destruct (convert_to_json (sample_clock 2025) sample_headers sample_rows
              [2; 1; 7]) as [[doc out]|e] eqn:Hrun.
  - exists doc, out. split; [reflexivity|].
    exact (proj1 (segment_counts_bounded _ _ _ _ _ _ Hrun)).
  - vm_compute in Hrun. discriminate Hrun.
Defined.

Lemma no_name_column_witness :
  exists doc out,
    convert_to_json (sample_clock 2025) [py "title"; py "reviews"]
      [[py "Acme"; py "12"]] [1] = Ok (doc, out)
    /\ Forall (fun c => bi_name (c_basic_info c) = py "")
         (hvac_contractors doc)
    /\ length (hvac_contractors doc) = 1%nat.
Proof.
  destruct (convert_to_json (sample_clock 2025) [py "title"; py "reviews"]
              [[py "Acme"; py "12"]] [1]) as [[doc out]|e] eqn:Hrun.
  - exists doc, out. split; [reflexivity|]. split.
    + apply (no_name_column_blank_names _ _ _ _ _ _) with (2 := Hrun).
      intros Hin.
      repeat (apply elem_of_cons in Hin as [Hin|Hin]; [discriminate Hin|]).
      inversion Hin.
    + vm_compute in Hrun. injection Hrun as <- _. reflexivity.
  - vm_compute in Hrun. discriminate Hrun.
Defined.

Lemma segmentation_from_fields_witness :
  exists doc out,
    convert_to_json (sample_clock 2025) sample_headers sample_rows [2; 1; 7] =
      Ok (doc, out)
    /\ Forall (fun c => c_segmentation c = flags_of c) (hvac_contractors doc).
Proof.
  destruct (convert_to_json (sample_clock 2025) sample_headers sample_rows
              [2; 1; 7]) as [[doc out]|e] eqn:Hrun.
  - exists doc, out. split; [reflexivity|].
    exact (segmentation_from_fields _ _ _ _ _ _ Hrun).
  - vm_compute in Hrun. discriminate Hrun.
Defined.

Lemma established_and_reviews_witness :
  exists doc out,
    convert_to_json (sample_clock 2025) sample_headers sample_rows [2; 1; 7] =
      Ok (doc, out)
    /\ Forall
         (fun c =>
            established_business (c_segmentation c) = true <->
            exists y, bd_year_founded (c_business_details c) = Some y
                      /\ y <> 0 /\ y + 5 < 2025)
         (hvac_contractors doc).
Proof.
  destruct (convert_to_json (sample_clock 2025) sample_headers sample_rows
              [2; 1; 7]) as [[doc out]|e] eqn:Hrun.
  - exists doc, out. split; [reflexivity|].
    eapply Forall_impl;
      [exact (established_and_reviews_flags _ _ _ _ _ _ Hrun)|].
    intros c [Hc _]. exact Hc.
  - vm_compute in Hrun. discriminate Hrun.
Defined.


Lemma additional_emails_witness :
  exists c,
    build_contractor (make_header_map contact_headers) contact_row 2025 1
      (sample_clock 2025 1) = Ok c
    /\ map em_address (ci_additional_emails (c_contact_info c)) =
         [py "a@acme.example"; py "a@acme.example"].
Proof.
  destruct (build_contractor (make_header_map contact_headers) contact_row
              2025 1 (sample_clock 2025 1)) as [c|e] eqn:Hbuild.
  - exists c. split; [reflexivity|].
    rewrite (additional_emails_kept _ _ _ _ _ _ Hbuild).
    vm_compute. reflexivity.
  - vm_compute in Hbuild. discriminate Hbuild.
Defined.

Lemma additional_phones_complete_witness :
  exists c,
    build_contractor (make_header_map contact_headers) contact_row 2025 1
      (sample_clock 2025 1) = Ok c
    /\ sublist
         (map pe_number (ph_additional_phones (ci_phone (c_contact_info c))))
         [py "(555) 1000"; py "555 2000"; py ""]
    /\ map pe_number (ph_additional_phones (ci_phone (c_contact_info c))) =
         [py "555 2000"].
Proof.
  destruct (build_contractor (make_header_map contact_headers) contact_row
              2025 1 (sample_clock 2025 1)) as [c|e] eqn:Hbuild.
  - exists c. split; [reflexivity|]. split.
    + exact (proj1 (additional_phones_complete _ _ _ _ _ _ Hbuild)).
    + vm_compute in Hbuild. injection Hbuild as <-. reflexivity.
  - vm_compute in Hbuild. discriminate Hbuild.
Defined.

Lemma services_clean_witness :
  exists c,
    build_contractor (make_header_map contact_headers) contact_row 2025 1
      (sample_clock 2025 1) = Ok c
    /\ Forall (fun s => s <> py "") (bd_services (c_business_details c))
    /\ bd_services (c_business_details c) =
         [py "HVAC contractor"; py "Plumber"].
Proof.
  destruct (build_contractor (make_header_map contact_headers) contact_row
              2025 1 (sample_clock 2025 1)) as [c|e] eqn:Hbuild.
  - exists c. split; [reflexivity|]. split.
    + eapply Forall_impl;
        [exact (proj1 (services_clean _ _ _ _ _ _ Hbuild))|].
      intros s [Hs _]. exact Hs.
    + vm_compute in Hbuild. injection Hbuild as <-. reflexivity.
  - vm_compute in Hbuild. discriminate Hbuild.
Defined.

(** ** Where the code departs from the specification *)

(** The literal "None" is neither empty, nor does it begin with "{" or hold
    a "|"; it gives the empty mapping, not [{"raw_hours": "None"}]. *)
Lemma parse_hours_none_counterexample :
  (truthy (py "None") = true
   /\ startswith (chr "{") (py "None") = false
   /\ contains (chr "|") (py "None") = false)
  /\ parse_hours (interp := ascii_interpreter) (py "None") = ODict []
  /\ ODict [] <> raw_hours (py "None").
Proof. repeat split; discriminate. Qed.

(** Row 1 of the sample table has the state column, with an empty cell, and
    "TX" in us_state: the record's state is empty. *)
Lemma state_fallback_counterexample :
  exists doc out,
    convert_to_json (interp := ascii_interpreter) (sample_clock 2025)
      sample_headers sample_rows [1] = Ok (doc, out)
    /\ map (fun c => loc_state (bi_location (c_basic_info c)))
         (hvac_contractors doc) = [py ""]
    /\ get_value (header_map sample_headers) (nth 0 sample_rows [])
         (py "us_state") (py "") = py "TX".
Proof. eexists _, _. repeat split; vm_compute; reflexivity. Qed.

(** Row 2 of the sample table has founded year "0": [year_founded] is the
    integer 0, and [years_in_business] is none, not 2025. *)
Lemma year_zero_counterexample :
  exists doc out,
    convert_to_json (interp := ascii_interpreter) (sample_clock 2025)
      sample_headers sample_rows [2] = Ok (doc, out)
    /\ map (fun c => (bd_year_founded (c_business_details c),
                      bd_years_in_business (c_business_details c)))
         (hvac_contractors doc) = [(Some 0, None)].
Proof. eexists _, _. repeat split; vm_compute; reflexivity. Qed.

(** Row 1 of the sample table has a place id; a run in 2025 and a run in
    2026 give it different [years_in_business], so the documents differ
    in more than ids and [generated_at]. *)
Lemma rerun_other_year_counterexample :
  exists d1 o1 d2 o2,
    convert_to_json (interp := ascii_interpreter) (sample_clock 2025)
      sample_headers sample_rows [1] = Ok (d1, o1)
    /\ convert_to_json (interp := ascii_interpreter) (sample_clock 2026)
         sample_headers sample_rows [1] = Ok (d2, o2)
    /\ map (fun c => bd_years_in_business (c_business_details c))
         (hvac_contractors d1) = [Some 25]
    /\ map (fun c => bd_years_in_business (c_business_details c))
         (hvac_contractors d2) = [Some 26]
    /\ scrub_document d1 <> scrub_document d2.
Proof.
  eexists _, _, _, _.
  split; [vm_compute; reflexivity|].
  split; [vm_compute; reflexivity|].
  split; [vm_compute; reflexivity|].
  split; [vm_compute; reflexivity|].
  intros Heq.
  apply (f_equal
           (fun d => map (fun c => bd_years_in_business (c_business_details c))
                       (hvac_contractors d))) in Heq.
  vm_compute in Heq. discriminate Heq.
Qed.
